(** * Trashcan-Panda-i2c-Test: bring-up and power-cycle self-test harness

    A shallow embedding of [src/Trashcan-Panda-i2c-Test.ino]: the bus scan
    [i2cScan], the initialisation sequence [setup] and the sampling loop
    [loop] with its one-shot power-cycle self-test.

    The sketch talks to five external drivers (Wire, LIS3DH, VL53L1X, AB1805,
    FRAM).  Every call into a driver, every log line and every assignment to
    a global is recorded, in program order, in a trace of [Event]s; what a
    driver answers is given by an environment [Env] whose oracles read the
    trace so far.  A permanent halt ([while(1);]) and a ranging wait that
    never ends are results of their own ([Stop]). *)

From Stdlib Require Import ZArith List String Ascii Bool Lia DecimalString.
Import ListNotations.
Open Scope list_scope.
Open Scope string_scope.
Open Scope Z_scope.

(** ** C library and formatting helpers *)

(** [snprintf(buf, size, ...)] keeps at most [size - 1] characters. *)
Definition snprintf (size : nat) (formatted : string) : string :=
  substring 0 (size - 1) formatted.

(** [strncpy(dest, src, n)] with [src] shorter than [n]: [dest] holds [src]. *)
Definition strncpy (src : string) (n : nat) : string :=
  substring 0 n src.

(** [strncat(dest, src, n)] appends at most [n] characters of [src]. *)
Definition strncat (dest src : string) (n : nat) : string :=
  dest ++ substring 0 n src.

Definition hexDigit (d : Z) : ascii :=
  if d <? 10 then ascii_of_nat (Z.to_nat (48 + d))
  else ascii_of_nat (Z.to_nat (55 + d)).

(** ["%02X"] applied to a byte. *)
Definition fmt_02X (b : Z) : string :=
  String (hexDigit (b / 16)) (String (hexDigit (b mod 16)) EmptyString).

(** ["%i"] and ["%d"]. *)
Definition fmt_i (z : Z) : string :=
  NilZero.string_of_int (Z.to_int z).

(** ** Constants of the sketch *)

Inductive Pin := A4 | D2 | D3 | D4 | D7 | D8.

Definition tmp36Pin := A4.
Definition wakeUpPin := D8.
Definition blueLED := D7.
Definition userSwitch := D4.
Definition disableModule := D2.
Definition intPin := D3.

Definition LOW := false.

Definition FRAMversionNumber : Z := 42.

Module FRAM.

Definition versionAddr : Z := 0.
Definition systemStatusAddr : Z := 1.
Definition currentCountsAddr : Z := 80.

End FRAM.

(** The one timeout the sketch passes to [setWDT]: the driver's constant
    [AB1805::WATCHDOG_MAX_SECONDS], its longest timeout.  The driver is not
    part of the sketch, so the constant is kept symbolic. *)
Inductive WatchdogTimeout := WATCHDOG_MAX_SECONDS.

(** [unsigned long] is 32 bits wide on the target. *)
Definition ulong (z : Z) : Z := z mod 2 ^ 32.

(** ** The bus scan, over one bus configuration

    [bus address] is the status [Wire.endTransmission()] returns for the
    zero-length transaction to [address]: 0 acknowledged, 4 bus fault,
    anything else no device.  Each address is probed at most once per scan,
    so a map from addresses to status codes covers every sequence of
    per-address outcomes. *)

Definition Bus := Z -> Z.

(** How the [for] loop is left. *)
Inductive LoopExit :=
| ReturnedFault (resultStr : string)              (* [return 0] inside the loop *)
| LeftLoop (nDevices : Z) (resultStr : string).   (* [break] or [address == 127] *)

(** The addresses the loop header enumerates: [address = 1; address < 127]. *)
Definition scanAddresses : list Z := map Z.of_nat (seq 1 126).

(** The loop body, iterated over the remaining addresses.  The first
    component lists the transactions made, in order, with their status. *)
Fixpoint scanLoop (bus : Bus) (addresses : list Z) (nDevices : Z)
    (resultStr : string) : list (Z * Z) * LoopExit :=
  match addresses with
  | [] => ([], LeftLoop nDevices resultStr)
  | address :: rest =>
      let error := bus address in
      if error =? 0 then
        let tempString := snprintf 4 (fmt_02X address ++ " ") in
        let resultStr := strncat resultStr tempString 4 in
        let nDevices := nDevices + 1 in
        if nDevices =? 9 then ([(address, error)], LeftLoop nDevices resultStr)
        else
          let (probes, exit) := scanLoop bus rest nDevices resultStr in
          ((address, error) :: probes, exit)
      else if error =? 4 then
        ([(address, error)],
         ReturnedFault (snprintf 128 ("Unknown error at address " ++ fmt_02X address)))
      else
        let (probes, exit) := scanLoop bus rest nDevices resultStr in
        ((address, error) :: probes, exit)
  end.

(** What one call of [i2cScan] does: the transactions, the one line it logs
    and the value it returns. *)
Record Scan := mkScan {
  probes : list (Z * Z);
  logged : string;
  returned : bool
}.

Definition i2cScanOn (bus : Bus) : Scan :=
  let nDevices := 0 in
  let resultStr := strncpy "i2c device(s) found at: " 128 in
  match scanLoop bus scanAddresses nDevices resultStr with
  | (probes, ReturnedFault resultStr) => mkScan probes resultStr false
  | (probes, LeftLoop nDevices resultStr) =>
      if nDevices =? 0 then
        mkScan probes (snprintf 128 "No I2C devices found") false
      else mkScan probes resultStr true
  end.

(** Addresses probed, and addresses that acknowledged, in scan order. *)
Definition probed (s : Scan) : list Z := map fst (probes s).
Definition ackOf (transactions : list (Z * Z)) : list Z :=
  map fst (filter (fun p => snd p =? 0) transactions).
Definition acknowledged (s : Scan) : list Z := ackOf (probes s).

(** Some buses. *)
Definition emptyBus : Bus := fun _ => 2.
Definition busWith (devices : list Z) : Bus :=
  fun a => if existsb (Z.eqb a) devices then 0 else 2.
Definition busFaultAt (fault : Z) (devices : list Z) : Bus :=
  fun a => if a =? fault then 4 else busWith devices a.


(** ** Events, state and environment *)

Inductive PinModeT := INPUT | OUTPUT.

(** The only rate the sketch configures: [LIS3DH::RATE_100_HZ]. *)
Inductive AccelRate := RATE_100_HZ.

Inductive Flag := SensorOnlineTOF | SensorOnlineLIS3DH | CarrierOnline | PowerCycleOnce.

(** One entry per externally visible action or global assignment, with the
    answer the driver gave where there is one. *)
Inductive Event :=
| WireBegin
| PinMode (pin : Pin) (mode : PinModeT)
| DigitalWrite (pin : Pin) (level : bool)
| Delay (ms : Z)
| WireTransmission (address status : Z)
| LogInfo (line : string)
| SerialPrintln (line : string)
| AccelSetup (rate : AccelRate) (ok : bool)
| AccelGetSample (sample : option (Z * Z * Z))
| TofBegin (rc : Z)
| TofStartRanging
| TofCheckForDataReady (ready : bool)
| TofGetDistance (distance : Z)
| TofClearInterrupt
| TofStopRanging
| FramBegin
| FramGet (addr value : Z)
| FramErase
| FramPut (addr value : Z)
| RtcSetup (fout : Pin)
| RtcSetWDT (seconds : WatchdogTimeout)
| RtcDetectChip (found : bool)
| Millis (now : Z)
| SetFlag (flag : Flag) (value : bool)
| SetLastSampleTimestamp (value : Z).

(** The globals of the sketch and the trace so far. *)
Record State := mkState {
  sensorOnlineTOF : bool;
  sensorOnlineLIS3DH : bool;
  carrierOnline : bool;
  lastSampleTimestamp : Z;
  sampleRateMillis : Z;
  powerCycleOnce : bool;
  trace : list Event
}.

(** The globals as initialised at lines 40-46; [lastSampleTimestamp] has
    static storage and no initialiser, so it starts at zero. *)
Definition bootState : State := mkState false false false 0 2000 true [].

(** What the hardware answers, given everything that happened before. *)
Record Env := mkEnv {
  wire_endTransmission : list Event -> Bus;
  accel_setup : list Event -> bool;
  accel_getSample : list Event -> option (Z * Z * Z);
  distanceSensor_begin : list Event -> Z;
  (* failed polls of [checkForDataReady] before it answers true; [None]: never *)
  distanceSensor_readyAfter : list Event -> option nat;
  distanceSensor_getDistance : list Event -> Z;
  fram_get : list Event -> Z -> Z;
  ab1805_detectChip : list Event -> bool;
  millis : list Event -> Z
}.

(** Why the program makes no further progress. *)
Inductive StopKind :=
| Halted      (* [while(1);] *)
| Spinning.   (* [while (!distanceSensor.checkForDataReady())] never left *)

Inductive Res (A : Type) :=
| Ret (a : A) (s : State)
| Stop (why : StopKind) (s : State).
Arguments Ret {A} a s.
Arguments Stop {A} why s.

Definition stateOf {A} (r : Res A) : State :=
  match r with Ret _ s => s | Stop _ s => s end.

Definition stopped {A} (r : Res A) : option StopKind :=
  match r with Ret _ _ => None | Stop why _ => Some why end.

Definition M (A : Type) : Type := State -> Res A.

Definition ret {A} (a : A) : M A := fun s => Ret a s.

Definition bind {A B} (m : M A) (k : A -> M B) : M B :=
  fun s => match m s with
           | Ret a s' => k a s'
           | Stop why s' => Stop why s'
           end.

Notation "x <- c1 ;; c2" := (bind c1 (fun x => c2))
  (at level 61, c1 at next level, right associativity).
Notation "c1 ;; c2" := (bind c1 (fun _ => c2))
  (at level 61, right associativity).

Definition get : M State := fun s => Ret s s.

(** The state with [es] appended to its trace. *)
Definition addEvents (s : State) (es : list Event) : State :=
  mkState (sensorOnlineTOF s) (sensorOnlineLIS3DH s) (carrierOnline s)
          (lastSampleTimestamp s) (sampleRateMillis s) (powerCycleOnce s)
          (trace s ++ es)%list.

Definition emit (e : Event) : M unit := fun s => Ret tt (addEvents s [e]).

Fixpoint emitAll (es : list Event) : M unit :=
  match es with
  | [] => ret tt
  | e :: es => emit e;; emitAll es
  end.

Definition ask {A} (oracle : list Event -> A) : M A :=
  fun s => Ret (oracle (trace s)) s.

(** [while(1);] *)
Definition halt {A} : M A := fun s => Stop Halted s.

Definition setFlag (f : Flag) (v : bool) : M unit :=
  fun s =>
    let t := (trace s ++ [SetFlag f v])%list in
    Ret tt
      match f with
      | SensorOnlineTOF =>
          mkState v (sensorOnlineLIS3DH s) (carrierOnline s)
            (lastSampleTimestamp s) (sampleRateMillis s) (powerCycleOnce s) t
      | SensorOnlineLIS3DH =>
          mkState (sensorOnlineTOF s) v (carrierOnline s)
            (lastSampleTimestamp s) (sampleRateMillis s) (powerCycleOnce s) t
      | CarrierOnline =>
          mkState (sensorOnlineTOF s) (sensorOnlineLIS3DH s) v
            (lastSampleTimestamp s) (sampleRateMillis s) (powerCycleOnce s) t
      | PowerCycleOnce =>
          mkState (sensorOnlineTOF s) (sensorOnlineLIS3DH s) (carrierOnline s)
            (lastSampleTimestamp s) (sampleRateMillis s) v t
      end.

Definition setLastSampleTimestamp (v : Z) : M unit :=
  fun s => Ret tt (mkState (sensorOnlineTOF s) (sensorOnlineLIS3DH s) (carrierOnline s)
                     v (sampleRateMillis s) (powerCycleOnce s)
                     (trace s ++ [SetLastSampleTimestamp v])%list).

Definition when (b : bool) (m : M unit) : M unit := if b then m else ret tt.

(** ** The sketch *)

Section Sketch.

Variable env : Env.

(** *** Driver calls *)

Definition Wire_begin := emit WireBegin.
Definition pinMode p m := emit (PinMode p m).
Definition digitalWrite p v := emit (DigitalWrite p v).
Definition delay ms := emit (Delay ms).
Definition Log_info line := emit (LogInfo line).
Definition Serial_println line := emit (SerialPrintln line).

Definition accel_setup_ (rate : AccelRate) : M bool :=
  ok <- ask (accel_setup env);; emit (AccelSetup rate ok);; ret ok.

Definition accel_getSample_ : M (option (Z * Z * Z)) :=
  r <- ask (accel_getSample env);; emit (AccelGetSample r);; ret r.

Definition distanceSensor_begin_ : M Z :=
  rc <- ask (distanceSensor_begin env);; emit (TofBegin rc);; ret rc.

Definition distanceSensor_getDistance_ : M Z :=
  d <- ask (distanceSensor_getDistance env);; emit (TofGetDistance d);; ret d.

(** [tempVersion] is a [byte]. *)
Definition fram_get_ (addr : Z) : M Z :=
  v <- ask (fun h => fram_get env h addr mod 256);; emit (FramGet addr v);; ret v.

Definition ab1805_detectChip_ : M bool :=
  found <- ask (ab1805_detectChip env);; emit (RtcDetectChip found);; ret found.

(** [millis()] returns a 32-bit tick count. *)
Definition millis_ : M Z :=
  now <- ask (fun h => ulong (millis env h));; emit (Millis now);; ret now.

(** [while (!distanceSensor.checkForDataReady()) delay(1);] *)
Fixpoint pollReady (failedPolls : nat) : M unit :=
  match failedPolls with
  | O => emit (TofCheckForDataReady true)
  | S n => emit (TofCheckForDataReady false);; delay 1;; pollReady n
  end.

Definition waitForDataReady : M unit :=
  fun s => match distanceSensor_readyAfter env (trace s) with
           | Some n => pollReady n s
           | None => Stop Spinning s
           end.

(** *** [i2cScan], lines 205-243 *)
Definition i2cScan : M bool :=
  bus <- ask (wire_endTransmission env);;
  let scan := i2cScanOn bus in
  emitAll (map (fun p => WireTransmission (fst p) (snd p)) (probes scan));;
  Log_info (logged scan);;
  ret (returned scan).

(** *** Lines 71-80 and 176-185 (the same statements) *)
Definition initLIS3DH : M unit :=
  setupSuccess <- accel_setup_ RATE_100_HZ;;
  if setupSuccess then
    Log_info "LIS3DH Initialized successfully";;
    setFlag SensorOnlineLIS3DH true
  else Log_info "LIS3DH failed initialization".

(** *** Lines 82-87 and 187-192 (the same statements) *)
Definition initTOF : M unit :=
  rc <- distanceSensor_begin_;;
  if rc =? 0 then
    Log_info "TOF Sensor Initialized successfully";;
    setFlag SensorOnlineTOF true
  else Log_info "TOF Sensor failed initialization".

(** *** Lines 89-107 *)
Definition initFRAM : M unit :=
  emit FramBegin;;
  tempVersion <- fram_get_ FRAM.versionAddr;;
  if negb (tempVersion =? FRAMversionNumber) then
    Log_info ("FRAM Module initializing version " ++ fmt_i FRAMversionNumber);;
    emit FramErase;;
    emit (FramPut FRAM.versionAddr FRAMversionNumber);;
    tempVersion <- fram_get_ FRAM.versionAddr;;
    if negb (tempVersion =? FRAMversionNumber) then
      setFlag CarrierOnline false;;
      Log_info ("FRAM test failed, expected " ++ fmt_i FRAMversionNumber
                ++ " and found " ++ fmt_i tempVersion)
    else setFlag CarrierOnline true
  else
    setFlag CarrierOnline true;;
    Log_info "FRAM Module loaded successfully".

(** *** Lines 109-118 *)
Definition initRTC : M unit :=
  emit (RtcSetup D8);;
  emit (RtcSetWDT WATCHDOG_MAX_SECONDS);;
  found <- ab1805_detectChip_;;
  if found then Log_info "AB1805 detected"
  else
    Log_info "AB1805 Failed to Initialize";;
    s <- get;;
    when (carrierOnline s) (setFlag CarrierOnline false).

(** *** Lines 120-129 *)
Definition setupDecision : M unit :=
  s <- get;;
  if sensorOnlineLIS3DH s && sensorOnlineTOF s && carrierOnline s then
    Log_info "Initialization Complete all devices on-line";;
    delay 500;;
    Log_info "Starting a running sample run";;
    Log_info "*****************************"
  else
    Log_info "Errors in Initialization - Stopping";;
    halt.

(** *** [setup], lines 58-131 *)
Definition setup : M unit :=
  Wire_begin;;
  pinMode intPin INPUT;;
  pinMode disableModule OUTPUT;;
  digitalWrite disableModule LOW;;
  delay 1000;;
  i2cScan;;
  initLIS3DH;;
  initTOF;;
  initFRAM;;
  initRTC;;
  setupDecision.

(** *** Lines 139-149 *)
Definition sampleTOF : M unit :=
  s <- get;;
  when (sensorOnlineTOF s)
    (emit TofStartRanging;;
     waitForDataReady;;
     distance <- distanceSensor_getDistance_;;
     emit TofClearInterrupt;;
     emit TofStopRanging;;
     Log_info ("Distance measured = " ++ fmt_i distance)).

(** *** Lines 151-159 *)
Definition sampleLIS3DH : M unit :=
  s <- get;;
  when (sensorOnlineLIS3DH s)
    (r <- accel_getSample_;;
     match r with
     | Some (x, y, z) => Log_info (fmt_i x ++ "," ++ fmt_i y ++ "," ++ fmt_i z)
     | None => Serial_println "no sample"
     end).

(** *** The sample round, lines 137-159 *)
Definition sampleRound : M unit :=
  now <- millis_;;
  setLastSampleTimestamp now;;
  sampleTOF;;
  sampleLIS3DH.

(** *** Lines 193-199 *)
Definition powerCycleDecision : M unit :=
  s <- get;;
  if sensorOnlineLIS3DH s && sensorOnlineTOF s then
    Log_info "Power on test complete - measuring resumed"
  else
    Log_info "Power on test failed - stopping";;
    halt.

(** *** The power-cycle self-test, lines 163-199 *)
Definition powerCycleTest : M unit :=
  setFlag PowerCycleOnce false;;
  Log_info "Devices on line with power";;
  i2cScan;;
  Log_info "Powering down the sensor board";;
  digitalWrite disableModule true;;
  delay 1000;;
  Log_info "Devices on-line without power";;
  i2cScan;;
  found <- ab1805_detectChip_;;
  when found (Log_info "AB1805 detected");;
  Log_info "Bringing sensors back on-line";;
  digitalWrite disableModule false;;
  Log_info "Devices on-line with power restored";;
  i2cScan;;
  initLIS3DH;;
  initTOF;;
  powerCycleDecision.

(** *** [loop], lines 134-203: its two [if] statements in turn *)
Definition sampleIfDue : M unit :=
  now <- millis_;;
  s <- get;;
  when (ulong (now - lastSampleTimestamp s) >? sampleRateMillis s) sampleRound.

Definition powerCycleIfArmed : M unit :=
  s <- get;;
  when (powerCycleOnce s) powerCycleTest.

Definition loop : M unit :=
  sampleIfDue;;
  powerCycleIfArmed.

(** [n] passes through [loop]. *)
Fixpoint loops (n : nat) : M unit :=
  match n with
  | O => ret tt
  | S n => loop;; loops n
  end.

(** The process: boot, [setup], then [loop] over and over. *)
Definition run (n : nat) : Res unit := (setup;; loops n) bootState.

End Sketch.

Arguments ulong : simpl never.

(** ** Reading a trace *)

(** The events a computation added to the trace of the state it started in. *)
Definition eventsSince (s0 s : State) : list Event :=
  skipn (List.length (trace s0)) (trace s).

(** What an event does to the globals: assignments are the only events
    that change them. *)
Definition applyEvent (s : State) (e : Event) : State :=
  match e with
  | SetFlag f v => stateOf (setFlag f v s)
  | SetLastSampleTimestamp v => stateOf (setLastSampleTimestamp v s)
  | _ => addEvents s [e]
  end.

(** The state reached from [s] by the events [d]. *)
Definition replay (s : State) (d : list Event) : State := fold_left applyEvent d s.

Definition isAssignment (e : Event) : bool :=
  match e with
  | SetFlag _ _ | SetLastSampleTimestamp _ => true
  | _ => false
  end.

(** [s'] is reached from [s] by events that all satisfy [allowed]. *)
Definition Steps (allowed : Event -> bool) (s s' : State) : Prop :=
  exists d, forallb allowed d = true /\ s' = replay s d.

(** Whatever state [m] starts in, it only adds [allowed] events, also
    when it stops. *)
Definition steps {A} (allowed : Event -> bool) (m : M A) : Prop :=
  forall s, Steps allowed s (stateOf (m s)).

(** [m] always returns. *)
Definition total {A} (m : M A) : Prop :=
  forall s, stopped (m s) = None.

(** [m] stops, if at all, only for a reason [ok] admits. *)
Definition stopsOnly {A} (ok : StopKind -> bool) (m : M A) : Prop :=
  forall s why, stopped (m s) = Some why -> ok why = true.

Definition never (why : StopKind) : bool := false.
Definition spinningOnly (why : StopKind) : bool :=
  match why with Spinning => true | Halted => false end.

(** The log line of a bus-fault abort at [address], line 229. *)
Definition faultReport (address : Z) : string :=
  snprintf 128 ("Unknown error at address " ++ fmt_02X address).

(** A scan was aborted by a bus fault when one of its transactions
    returned status 4. *)
Definition faultIn (transactions : list (Z * Z)) : bool :=
  existsb (fun p => snd p =? 4) transactions.
Definition faulted (scan : Scan) : bool := faultIn (probes scan).

(** The list part of the report for the addresses [found]. *)
Definition hexList (found : list Z) : string :=
  String.concat "" (map (fun a => fmt_02X a ++ " ") found).
Definition listReport (found : list Z) : string :=
  "i2c device(s) found at: " ++ hexList found.

(** Addresses of [addresses] that acknowledge on [bus]. *)
Definition acks (bus : Bus) (addresses : list Z) : list Z :=
  filter (fun a => bus a =? 0) addresses.

(** The addresses [1 .. a] in ascending order. *)
Definition upTo (a : Z) : list Z := map Z.of_nat (seq 1 (Z.to_nat a)).

(** Values the version byte was read as, in order. *)
Definition framReads (tr : list Event) : list Z :=
  flat_map (fun e => match e with FramGet _ v => [v] | _ => [] end) tr.

(** The store-integrity check passed: the last read of the version byte
    gave the expected version. *)
Definition storeCheckPassed (tr : list Event) : bool :=
  match rev (framReads tr) with
  | v :: _ => v =? FRAMversionNumber
  | [] => false
  end.

(** Answers of [ab1805.detectChip()], in order. *)
Definition rtcDetections (tr : list Event) : list bool :=
  flat_map (fun e => match e with RtcDetectChip b => [b] | _ => [] end) tr.

(** The RTC-detection check passed: the chip was detected. *)
Definition rtcCheckPassed (tr : list Event) : bool :=
  match rtcDetections tr with
  | b :: _ => b
  | [] => false
  end.

(** The first statement of the self-test body, line 163. *)
Definition isSelfTestStart (e : Event) : bool :=
  match e with SetFlag PowerCycleOnce false => true | _ => false end.

Definition selfTestRuns (tr : list Event) : nat :=
  List.length (filter isSelfTestStart tr).

(** An assignment of [false] to one of the two sensor flags. *)
Definition isSensorFlagCleared (e : Event) : bool :=
  match e with
  | SetFlag SensorOnlineTOF false | SetFlag SensorOnlineLIS3DH false => true
  | _ => false
  end.

(** Events that only the sample round of lines 137-159 produces. *)
Definition isSampleEvent (e : Event) : bool :=
  match e with
  | SetLastSampleTimestamp _ | TofStartRanging | TofCheckForDataReady _
  | TofGetDistance _ | TofClearInterrupt | TofStopRanging
  | AccelGetSample _ | SerialPrintln _ => true
  | _ => false
  end.

Definition sampleTaken (tr : list Event) : bool := existsb isSampleEvent tr.

(** The two log lines of the terminal decision of [setup], lines 121 and 127. *)
Definition acceptLine : string := "Initialization Complete all devices on-line".
Definition haltLine : string := "Errors in Initialization - Stopping".

(** ** Some environments *)

Definition countEvents (p : Event -> bool) (h : list Event) : nat :=
  List.length (filter p h).

Definition isAccelSetup (e : Event) : bool :=
  match e with AccelSetup _ _ => true | _ => false end.
Definition isMillis (e : Event) : bool :=
  match e with Millis _ => true | _ => false end.
Definition isFramPut (e : Event) : bool :=
  match e with FramPut _ _ => true | _ => false end.

(** The sensor board is unpowered after [digitalWrite(disableModule, true)]. *)
Fixpoint sensorsPowered (h : list Event) (powered : bool) : bool :=
  match h with
  | [] => powered
  | DigitalWrite D2 level :: h => sensorsPowered h (negb level)
  | _ :: h => sensorsPowered h powered
  end.

(** LIS3DH at 0x19 and VL53L1X at 0x29 on the sensor board, FRAM at 0x50 and
    AB1805 at 0x69 on the carrier. *)
Definition boardBus (h : list Event) : Bus :=
  if sensorsPowered h true then busWith [25; 41; 80; 105] else busWith [80; 105].

(** A board on which every device works; the store is already stamped and
    the clock advances 1500 ms per reading. *)
Definition healthyEnv : Env :=
  mkEnv boardBus
        (fun _ => true)
        (fun _ => Some (12, -3, 1024))
        (fun _ => 0)
        (fun _ => Some 2%nat)
        (fun _ => 731)
        (fun _ _ => 42)
        (fun _ => true)
        (fun h => 1500 * Z.of_nat (S (countEvents isMillis h))).

(** As [healthyEnv], but the accelerometer only answers its first
    [setup] call: it does not come back after the power cycle. *)
Definition accelLostEnv : Env :=
  mkEnv boardBus
        (fun h => (countEvents isAccelSetup h =? 0)%nat)
        (fun _ => Some (12, -3, 1024))
        (fun _ => 0)
        (fun _ => Some 2%nat)
        (fun _ => 731)
        (fun _ _ => 42)
        (fun _ => true)
        (fun h => 1500 * Z.of_nat (S (countEvents isMillis h))).

(** A blank store that takes the stamp: reads 255 until a put was made. *)
Definition blankStoreEnv : Env :=
  mkEnv boardBus
        (fun _ => true)
        (fun _ => None)
        (fun _ => 0)
        (fun _ => Some 0%nat)
        (fun _ => 731)
        (fun h _ => if (countEvents isFramPut h =? 0)%nat then 255 else 42)
        (fun _ => true)
        (fun h => 1500 * Z.of_nat (S (countEvents isMillis h))).

(** A store that does not respond (reads 255 whatever is written) and an
    RTC that is not detected. *)
Definition deadCarrierEnv : Env :=
  mkEnv boardBus
        (fun _ => true)
        (fun _ => None)
        (fun _ => 0)
        (fun _ => None)
        (fun _ => 0)
        (fun _ _ => 255)
        (fun _ => false)
        (fun _ => 0).

(** A state of the running sketch whose last sample was taken at 1000 ms. *)
Definition sampledAt1000 : State := mkState true true true 1000 2000 false [].

(** A clock that reads [t] whenever asked. *)
Definition clockAt (t : Z) : Env :=
  mkEnv boardBus (fun _ => true) (fun _ => None) (fun _ => 0)
        (fun _ => Some 0%nat) (fun _ => 731) (fun _ _ => 42) (fun _ => true)
        (fun _ => t).

(** ** Event classes and stage traces used in the properties *)

(** Nine devices below a faulting address: the fault is never seen. *)
Definition nineThenFault : Bus := busFaultAt 10 [1; 2; 3; 4; 5; 6; 7; 8; 9].

(** Events other than assignments to [powerCycleOnce]. *)
Definition keepsLatch (e : Event) : bool :=
  match e with SetFlag PowerCycleOnce _ => false | _ => true end.

(** The latch and the count of self-test runs never add up to more than one. *)
Definition latchInv (s : State) : Prop :=
  (selfTestRuns (trace s) + (if powerCycleOnce s then 1 else 0) <= 1)%nat.

(** Events other than clearing a sensor flag. *)
Definition keepsSensorsOn (e : Event) : bool := negb (isSensorFlagCleared e).

Definition isFramOp (e : Event) : bool :=
  match e with
  | FramBegin | FramGet _ _ | FramErase | FramPut _ _ => true
  | _ => false
  end.

(** The operations on the store, in order. *)
Definition framOps (tr : list Event) : list Event := filter isFramOp tr.

(** The events of lines 89-107 when the version byte reads [stored] and,
    after erase and put, reads back as [readBack]. *)
Definition framStage (stored readBack : Z) : list Event :=
  if stored =? FRAMversionNumber then
    [FramBegin; FramGet FRAM.versionAddr stored;
     SetFlag CarrierOnline true; LogInfo "FRAM Module loaded successfully"]
  else
    ([FramBegin; FramGet FRAM.versionAddr stored;
      LogInfo "FRAM Module initializing version 42";
      FramErase; FramPut FRAM.versionAddr FRAMversionNumber;
      FramGet FRAM.versionAddr readBack]
     ++ (if readBack =? FRAMversionNumber then [SetFlag CarrierOnline true]
         else [SetFlag CarrierOnline false;
               LogInfo ("FRAM test failed, expected 42 and found " ++ fmt_i readBack)]))%list.

(** The events of lines 109-118 when [detectChip] answers [found] and
    [carrierOnline] was [online] before. *)
Definition rtcStage (found online : bool) : list Event :=
  ([RtcSetup D8; RtcSetWDT WATCHDOG_MAX_SECONDS; RtcDetectChip found]
   ++ (if found then [LogInfo "AB1805 detected"]
       else LogInfo "AB1805 Failed to Initialize"
            :: (if online then [SetFlag CarrierOnline false] else [])))%list.

(** The events of the accepting branch, lines 121-124. *)
Definition acceptEvents : list Event :=
  [LogInfo acceptLine; Delay 500; LogInfo "Starting a running sample run";
   LogInfo "*****************************"].

(** Events other than those of the carrier checks. *)
Definition beforeCarrier (e : Event) : bool :=
  match e with
  | FramBegin | FramGet _ _ | FramErase | FramPut _ _
  | RtcSetup _ | RtcSetWDT _ | RtcDetectChip _ | SetFlag CarrierOnline _ => false
  | _ => true
  end.

Definition notSample (e : Event) : bool := negb (isSampleEvent e).
Definition anyEvent (e : Event) : bool := true.

(** Twelve devices, more than one report holds. *)
Definition twelveDevices : Bus := busWith [1; 2; 3; 4; 5; 6; 7; 8; 9; 10; 11; 12].

(** ** Further event classes and stage traces *)

(** The events of lines 71-80 when [accel.setup] answers [ok]. *)
Definition lisStage (ok : bool) : list Event :=
  AccelSetup RATE_100_HZ ok
  :: (if ok then [LogInfo "LIS3DH Initialized successfully";
                  SetFlag SensorOnlineLIS3DH true]
      else [LogInfo "LIS3DH failed initialization"]).

(** The events of lines 82-87 when [distanceSensor.begin()] returns [rc]. *)
Definition tofStage (rc : Z) : list Event :=
  TofBegin rc
  :: (if rc =? 0 then [LogInfo "TOF Sensor Initialized successfully";
                       SetFlag SensorOnlineTOF true]
      else [LogInfo "TOF Sensor failed initialization"]).

(** [accel.setup] answered true. *)
Definition accelSetupOk (tr : list Event) : bool :=
  existsb (fun e => match e with AccelSetup _ true => true | _ => false end) tr.

(** [distanceSensor.begin()] returned 0. *)
Definition tofBeginOk (tr : list Event) : bool :=
  existsb (fun e => match e with TofBegin rc => rc =? 0 | _ => false end) tr.

(** The calls that bring a device up or detect it. *)
Definition isInitCall (e : Event) : bool :=
  match e with
  | AccelSetup _ _ | TofBegin _ | FramBegin | RtcSetup _ | RtcDetectChip _ => true
  | _ => false
  end.

(** Events of lines 60-69: neither a device initialisation nor an
    assignment. *)
Definition beforeInit (e : Event) : bool :=
  negb (isInitCall e) && negb (isAssignment e) && beforeCarrier e.

(** Events other than assignments to a flag. *)
Definition keepsFlags (e : Event) : bool :=
  match e with SetFlag _ _ => false | _ => true end.

(** Events other than assignments to [carrierOnline]. *)
Definition keepsCarrier (e : Event) : bool :=
  match e with SetFlag CarrierOnline _ => false | _ => true end.

(** Events other than assignments to [lastSampleTimestamp]. *)
Definition keepsTimestamp (e : Event) : bool :=
  match e with SetLastSampleTimestamp _ => false | _ => true end.

(** Events other than writes to the power-disable line. *)
Definition noPowerWrite (e : Event) : bool :=
  match e with DigitalWrite D2 _ => false | _ => true end.

(** The latch and the count of self-test runs add up to exactly one. *)
Definition latchBalance (s : State) : Prop :=
  (selfTestRuns (trace s) + (if powerCycleOnce s then 1 else 0) = 1)%nat.

(** A state of the running sketch whose last sample was taken 296 ticks
    before the 32-bit tick counter wraps. *)
Definition sampledBeforeWrap : State :=
  mkState true true true 4294967000 2000 false [].

(** The board is powered whatever it was before the trace. *)
Definition poweredAtRest (s : State) : Prop :=
  forall before, sensorsPowered (trace s) before = true.

(** Lines 60-87 of [setup]: everything before the store is touched. *)
Definition beforeFRAM (env : Env) : M unit :=
  Wire_begin;;
  pinMode intPin INPUT;;
  pinMode disableModule OUTPUT;;
  digitalWrite disableModule LOW;;
  delay 1000;;
  i2cScan env;;
  initLIS3DH env;;
  initTOF env.

(** * Properties *)

(** ** Scenarios of the bus scan *)

Example scan_empty :
  i2cScanOn emptyBus = mkScan (map (fun a => (a, 2)) scanAddresses) "No I2C devices found" false.
Proof. reflexivity. Qed.

Example scan_two_devices :
  logged (i2cScanOn (busWith [98; 41])) = "i2c device(s) found at: 29 62 "
  /\ acknowledged (i2cScanOn (busWith [98; 41])) = [41; 98]
  /\ returned (i2cScanOn (busWith [98; 41])) = true.
Proof. repeat split; reflexivity. Qed.

Example scan_fault :
  i2cScanOn (busFaultAt 3 [1; 80]) =
  mkScan [(1, 0); (2, 2); (3, 4)] "Unknown error at address 03" false.
Proof. reflexivity. Qed.

(** ** The bus scan *)

Lemma string_app_assoc (a b c : string) : ((a ++ b) ++ c = a ++ (b ++ c))%string.
Proof. induction a as [|x a IH]; cbn; [reflexivity | now rewrite IH]. Qed.

Lemma string_app_nil_r (a : string) : (a ++ "" = a)%string.
Proof. induction a as [|x a IH]; cbn; [reflexivity | now rewrite IH]. Qed.

(** Lines 221-223: the three characters ["XX "] are appended unshortened. *)
Lemma strncat_hex (str : string) (a : Z) :
  strncat str (snprintf 4 (fmt_02X a ++ " ")) 4 = (str ++ (fmt_02X a ++ " "))%string.
Proof. reflexivity. Qed.

Lemma hexList_cons (a : Z) (l : list Z) :
  hexList (a :: l) = ((fmt_02X a ++ " ") ++ hexList l)%string.
Proof.
  unfold hexList. cbn [map String.concat].
  destruct (map _ l) eqn:E; [|reflexivity].
  cbn. reflexivity.
Qed.

Lemma ackOf_cons_ack a e pr : e = 0 -> ackOf ((a, e) :: pr) = a :: ackOf pr.
Proof. intros ->. reflexivity. Qed.

Lemma ackOf_cons_other a e pr : e <> 0 -> ackOf ((a, e) :: pr) = ackOf pr.
Proof.
  intros H. unfold ackOf. cbn. destruct (Z.eqb_spec e 0); [contradiction | reflexivity].
Qed.

Section ScanLoop.

Variable bus : Bus.

(** What the loop leaves behind, whichever way it is left. *)
Lemma scanLoop_inv (addresses : list Z) :
  forall n str pr ex,
    0 <= n < 9 ->
    scanLoop bus addresses n str = (pr, ex) ->
    let k := Z.of_nat (List.length (ackOf pr)) in
    n + k <= 9
    /\ (n + k = 9 -> exists earlier ninth, pr = (earlier ++ [(ninth, 0)])%list)
    /\ match ex with
       | LeftLoop n' str' =>
           n' = n + k
           /\ str' = (str ++ hexList (ackOf pr))%string
           /\ faultIn pr = false
           /\ (n + k < 9 -> map fst pr = addresses)
       | ReturnedFault r =>
           n + k < 9
           /\ exists earlier a,
               pr = (earlier ++ [(a, 4)])%list /\ r = faultReport a
               /\ faultIn earlier = false
       end.
Proof.
  induction addresses as [|a rest IH]; intros n str pr ex Hn Hrun; cbn [scanLoop] in Hrun.
  - injection Hrun as <- <-. cbn. repeat split; try lia.
    now rewrite string_app_nil_r.
  - destruct (Z.eqb_spec (bus a) 0) as [E0|E0].
    + rewrite strncat_hex in Hrun.
      destruct (Z.eqb_spec (n + 1) 9) as [E9|E9].
      * injection Hrun as <- <-. rewrite (ackOf_cons_ack _ _ _ E0). cbn.
        split; [lia|]. split.
        { intros _. exists [], a. now rewrite E0. }
        split; [lia|]. split; [reflexivity|]. split; [|lia].
        unfold faultIn. cbn. now rewrite E0.
      * destruct (scanLoop bus rest (n + 1) _) as [pr' ex'] eqn:Erest.
        injection Hrun as <- <-.
        apply IH in Erest; [|lia]. cbn zeta in Erest.
        destruct Erest as (Hle & Hninth & Hex).
        rewrite (ackOf_cons_ack _ _ _ E0). cbn [List.length].
        rewrite Nat2Z.inj_succ.
        split; [lia|]. split.
        -- intros H9. destruct Hninth as (earlier & ninth & ->); [lia|].
           exists ((a, bus a) :: earlier), ninth. reflexivity.
        -- destruct ex' as [r|n' str'].
           ++ destruct Hex as (Hlt & earlier & f & -> & -> & Hnf).
              split; [lia|]. exists ((a, bus a) :: earlier), f.
              repeat split. unfold faultIn in *. cbn. now rewrite E0, Hnf.
           ++ destruct Hex as (-> & -> & Hnf & Hall).
              split; [lia|]. split.
              { rewrite hexList_cons. now rewrite !string_app_assoc. }
              split.
              { unfold faultIn in *. cbn. now rewrite E0, Hnf. }
              intros Hlt. cbn. f_equal. apply Hall. lia.
    + destruct (Z.eqb_spec (bus a) 4) as [E4|E4].
      * injection Hrun as <- <-. rewrite (ackOf_cons_other _ _ _ E0). cbn.
        split; [lia|]. split; [lia|]. split; [lia|].
        exists [], a. rewrite E4. repeat split.
      * destruct (scanLoop bus rest n str) as [pr' ex'] eqn:Erest.
        injection Hrun as <- <-.
        apply IH in Erest; [|lia]. cbn zeta in Erest.
        destruct Erest as (Hle & Hninth & Hex).
        rewrite (ackOf_cons_other _ _ _ E0).
        split; [lia|]. split.
        -- intros H9. destruct Hninth as (earlier & ninth & ->); [lia|].
           exists ((a, bus a) :: earlier), ninth. reflexivity.
        -- destruct ex' as [r|n' str'].
           ++ destruct Hex as (Hlt & earlier & f & -> & -> & Hnf).
              split; [lia|]. exists ((a, bus a) :: earlier), f.
              repeat split. unfold faultIn in *. cbn.
              destruct (Z.eqb_spec (bus a) 4); [contradiction|]. exact Hnf.
           ++ destruct Hex as (-> & -> & Hnf & Hall).
              repeat split; try reflexivity.
              { unfold faultIn in *. cbn.
                destruct (Z.eqb_spec (bus a) 4); [contradiction|]. exact Hnf. }
              intros Hlt. cbn. f_equal. apply Hall. lia.
Qed.

(** Every transaction recorded carries the status the bus gave. *)
Lemma scanLoop_statuses (addresses : list Z) :
  forall n str pr ex,
    scanLoop bus addresses n str = (pr, ex) ->
    Forall (fun p => snd p = bus (fst p)) pr.
Proof.
  induction addresses as [|a rest IH]; intros n str pr ex Hrun; cbn [scanLoop] in Hrun.
  - injection Hrun as <- <-. constructor.
  - destruct (bus a =? 0).
    + destruct (n + 1 =? 9).
      * injection Hrun as <- <-. repeat constructor.
      * destruct (scanLoop bus rest (n + 1) _) as [pr' ex'] eqn:Erest.
        injection Hrun as <- <-. constructor; [reflexivity | eauto].
    + destruct (bus a =? 4).
      * injection Hrun as <- <-. repeat constructor.
      * destruct (scanLoop bus rest n str) as [pr' ex'] eqn:Erest.
        injection Hrun as <- <-. constructor; [reflexivity | eauto].
Qed.

(** A fault met before nine devices acknowledged ends the loop there. *)
Lemma scanLoop_fault_first (pre : list Z) (a : Z) (post : list Z) :
  forall n str,
    (forall x, In x pre -> bus x <> 4) ->
    bus a = 4 ->
    0 <= n ->
    n + Z.of_nat (List.length (acks bus pre)) < 9 ->
    scanLoop bus (pre ++ a :: post) n str =
    (map (fun x => (x, bus x)) (pre ++ [a]), ReturnedFault (faultReport a)).
Proof.
  induction pre as [|x pre IH]; intros n str Hpre Ha Hn Hcap; cbn [app scanLoop map].
  - rewrite Ha. cbn. reflexivity.
  - cbn [acks filter] in Hcap. fold (acks bus pre) in Hcap.
    assert (Hx : bus x <> 4) by (apply Hpre; now left).
    assert (Hpre' : forall y, In y pre -> bus y <> 4) by (intros y Hy; apply Hpre; now right).
    destruct (Z.eqb_spec (bus x) 0) as [E0|E0].
    + cbn [List.length] in Hcap. rewrite Nat2Z.inj_succ in Hcap.
      destruct (Z.eqb_spec (n + 1) 9); [lia|].
      rewrite IH by (auto; lia). reflexivity.
    + destruct (Z.eqb_spec (bus x) 4); [contradiction|].
      rewrite IH by (auto; lia). reflexivity.
Qed.

End ScanLoop.

Lemma upTo_bounds (a x : Z) : In x (upTo a) -> 1 <= x <= a.
Proof.
  unfold upTo. rewrite in_map_iff. intros (k & <- & Hk).
  apply in_seq in Hk. lia.
Qed.

Lemma upTo_last (a : Z) : 1 <= a -> upTo a = (upTo (a - 1) ++ [a])%list.
Proof.
  intros Ha. unfold upTo.
  replace (Z.to_nat a) with (Z.to_nat (a - 1) + 1)%nat by lia.
  rewrite seq_app, map_app. cbn. do 2 f_equal. lia.
Qed.

Lemma scanAddresses_split (a : Z) :
  1 <= a <= 126 ->
  scanAddresses =
  (upTo (a - 1) ++ a :: map Z.of_nat (seq (S (Z.to_nat a)) (126 - Z.to_nat a)))%list.
Proof.
  intros Ha. unfold scanAddresses, upTo.
  replace 126%nat with (Z.to_nat (a - 1) + S (126 - Z.to_nat a))%nat at 1 by lia.
  rewrite seq_app, map_app. f_equal.
  cbn [seq map]. f_equal; [lia|].
  do 2 f_equal. lia.
Qed.

(** The scan as a whole, read off the loop invariant. *)
Lemma i2cScanOn_inv (bus : Bus) :
  let s := i2cScanOn bus in
  let k := List.length (acknowledged s) in
  (k <= 9)%nat
  /\ (k = 9%nat -> exists earlier ninth, probes s = (earlier ++ [(ninth, 0)])%list)
  /\ (faulted s = true ->
      returned s = false
      /\ exists earlier a,
          probes s = (earlier ++ [(a, 4)])%list /\ logged s = faultReport a
          /\ faultIn earlier = false)
  /\ (faulted s = false ->
      ((k < 9)%nat -> probed s = scanAddresses)
      /\ (k = 0%nat -> returned s = false /\ logged s = "No I2C devices found"%string)
      /\ (k <> 0%nat -> returned s = true /\ logged s = listReport (acknowledged s))).
Proof.
  unfold i2cScanOn, acknowledged, faulted, probed.
  destruct (scanLoop bus scanAddresses 0 _) as [pr ex] eqn:Erun.
  apply scanLoop_inv in Erun; [|lia]. cbn zeta in Erun.
  destruct Erun as (Hle & Hninth & Hex).
  destruct ex as [r|n' str'].
  - destruct Hex as (Hlt & earlier & a & -> & -> & Hnf). cbn [probes logged returned].
    split; [lia|]. split; [intros; lia|]. split.
    + intros _. split; [reflexivity|]. now exists earlier, a.
    + unfold faultIn. rewrite existsb_app. cbn. rewrite orb_true_r. discriminate.
  - destruct Hex as (-> & -> & Hnf & Hall).
    destruct (Z.eqb_spec (0 + Z.of_nat (List.length (ackOf pr))) 0) as [E|E];
      cbn [probes logged returned].
    + split; [lia|]. split; [intros; lia|]. split; [congruence|].
      intros _. split; [intros; apply Hall; lia|]. split; [auto|]. intros; lia.
    + split; [lia|]. split; [intros; apply Hninth; lia|]. split; [congruence|].
      intros _. split; [intros; apply Hall; lia|]. split; [intros; lia|].
      intros _. split; reflexivity.
Qed.

Lemma i2cScanOn_statuses (bus : Bus) :
  Forall (fun p => snd p = bus (fst p)) (probes (i2cScanOn bus)).
Proof.
  unfold i2cScanOn.
  destruct (scanLoop bus scanAddresses 0 _) as [pr ex] eqn:Erun.
  apply scanLoop_statuses in Erun.
  destruct ex as [r|n' str']; [exact Erun|].
  destruct (n' =? 0); exact Erun.
Qed.

Lemma string_length_app (a b : string) :
  String.length (a ++ b) = (String.length a + String.length b)%nat.
Proof. induction a as [|x a IH]; cbn; [reflexivity | now rewrite IH]. Qed.

Lemma hexList_length (l : list Z) :
  String.length (hexList l) = (3 * List.length l)%nat.
Proof.
  induction l as [|a l IH]; [reflexivity|].
  rewrite hexList_cons, string_length_app, IH. cbn [List.length]. cbn. lia.
Qed.

(** X4: the line a scan logs always fits [resultStr], so [strncat] never
    writes past the 128 characters of the buffer. *)
Lemma scan_report_fits (bus : Bus) :
  (String.length (logged (i2cScanOn bus)) < 128)%nat.
Proof.
  destruct (i2cScanOn_inv bus) as (Hle & _ & Hfault & Hclean).
  destruct (faulted (i2cScanOn bus)).
  - destruct Hfault as (_ & earlier & a & _ & -> & _); [reflexivity|].
    cbn. lia.
  - destruct Hclean as (_ & Hzero & Hsome); [reflexivity|].
    destruct (Nat.eq_dec (List.length (acknowledged (i2cScanOn bus))) 0) as [E|E].
    + destruct (Hzero E) as [_ ->]. cbn. lia.
    + destruct (Hsome E) as [_ ->]. unfold listReport.
      rewrite string_length_app, hexList_length. cbn [String.length]. lia.
Qed.

(** A fault behind the cap is never met: with devices at 1 .. 9 the scan
    stops at the ninth, so address 10, which would return the bus-fault
    code, is not probed and the device list is reported. *)
Example scan_fault_behind_nine_devices :
  In 10 scanAddresses /\ nineThenFault 10 = 4
  /\ i2cScanOn nineThenFault =
     mkScan [(1, 0); (2, 0); (3, 0); (4, 0); (5, 0); (6, 0); (7, 0); (8, 0); (9, 0)]
            "i2c device(s) found at: 01 02 03 04 05 06 07 08 09 " true
  /\ ~ In 10 (probed (i2cScanOn nineThenFault)).
Proof.
  split; [vm_compute; tauto|]. split; [reflexivity|]. split; [reflexivity|].
  vm_compute. intros H. repeat (destruct H as [H|H]; [discriminate|]). exact H.
Qed.

(** When the fault is reached: if [a] is the lowest address that would
    return the bus-fault code 4 and fewer than nine lower addresses
    acknowledge, the scan probes exactly the addresses 1 .. a in order, logs
    the fault report for [a] and returns 0. *)
Lemma scan_reaches_first_fault (bus : Bus) (a : Z) :
  1 <= a <= 126 ->
  bus a = 4 ->
  (forall x, 1 <= x < a -> bus x <> 4) ->
  (List.length (acks bus (upTo (a - 1))) < 9)%nat ->
  i2cScanOn bus = mkScan (map (fun x => (x, bus x)) (upTo a)) (faultReport a) false.
Proof.
  intros Ha Hfault Hfirst Hcap. unfold i2cScanOn.
  rewrite (scanAddresses_split a Ha).
  rewrite scanLoop_fault_first; try assumption; try lia.
  - rewrite <- upTo_last by lia. reflexivity.
  - intros x Hx. apply upTo_bounds in Hx. apply Hfirst. lia.
Qed.

Example scan_reaches_first_fault_at_3 :
  i2cScanOn (busFaultAt 3 [1; 80]) =
  mkScan (map (fun x => (x, busFaultAt 3 [1; 80] x)) (upTo 3)) (faultReport 3) false.
Proof.
  apply (scan_reaches_first_fault (busFaultAt 3 [1; 80]) 3).
  - lia.
  - reflexivity.
  - intros x Hx. assert (x = 1 \/ x = 2) as [-> | ->] by lia; discriminate.
  - vm_compute. lia.
Qed.

(** C5: whatever the bus, the scan finds at most nine acknowledging
    addresses; a report that lists devices lists exactly those; when the
    ninth is found it is the last transaction of the scan; with fewer than
    nine found and no bus fault every address 1 .. 126 was probed; and each
    transaction carries the status the bus gives for its address. *)
Theorem scan_report_capped (bus : Bus) :
  (List.length (acknowledged (i2cScanOn bus)) <= 9)%nat
  /\ (returned (i2cScanOn bus) = true ->
      logged (i2cScanOn bus) = listReport (acknowledged (i2cScanOn bus)))
  /\ (List.length (acknowledged (i2cScanOn bus)) = 9%nat ->
      exists earlier ninth, probes (i2cScanOn bus) = (earlier ++ [(ninth, 0)])%list)
  /\ ((List.length (acknowledged (i2cScanOn bus)) < 9)%nat ->
      faulted (i2cScanOn bus) = false ->
      probed (i2cScanOn bus) = scanAddresses)
  /\ Forall (fun p => snd p = bus (fst p)) (probes (i2cScanOn bus)).
Proof.
  destruct (i2cScanOn_inv bus) as (Hle & Hninth & Hfault & Hclean).
  split; [exact Hle|]. split; [|split; [exact Hninth|split; [|apply i2cScanOn_statuses]]].
  - intros Hret. destruct (faulted (i2cScanOn bus)) eqn:Ef.
    + destruct Hfault as [Hfalse _]; congruence.
    + destruct Hclean as (_ & Hzero & Hsome); [reflexivity|].
      destruct (Nat.eq_dec (List.length (acknowledged (i2cScanOn bus))) 0) as [E|E].
      * destruct (Hzero E). congruence.
      * now destruct (Hsome E).
  - intros Hlt Hf. now destruct (Hclean Hf) as (Hall & _); auto.
Qed.

(** Twelve devices on the bus: nine are reported and address 9 is the last
    one probed. *)
Lemma scan_report_capped_witness :
  List.length (acknowledged (i2cScanOn twelveDevices)) = 9%nat
  /\ exists earlier ninth,
       probes (i2cScanOn twelveDevices) = (earlier ++ [(ninth, 0)])%list.
Proof.
  assert (H9 : List.length (acknowledged (i2cScanOn twelveDevices)) = 9%nat)
    by reflexivity.
  split; [exact H9|].
  exact (proj1 (proj2 (proj2 (scan_report_capped twelveDevices))) H9).
Defined.

(** C7, as stated, fails: a scan aborted by a bus fault at address 1 and a
    completed scan of an empty bus hand the caller the same value. *)
Lemma scan_result_same_for_fault_and_empty :
  faulted (i2cScanOn (busFaultAt 1 [])) = true
  /\ faulted (i2cScanOn emptyBus) = false
  /\ probed (i2cScanOn emptyBus) = scanAddresses
  /\ acknowledged (i2cScanOn emptyBus) = []
  /\ returned (i2cScanOn (busFaultAt 1 [])) = returned (i2cScanOn emptyBus).
Proof. repeat split. Qed.

Lemma faultReport_not_empty_report (a : Z) :
  faultReport a <> "No I2C devices found"%string.
Proof. unfold faultReport, snprintf. cbn. discriminate. Qed.

(** C7 (amended): the value [i2cScan] returns is 0 both for a scan aborted
    by a bus fault and for a completed scan that found no device; the two
    outcomes differ only in the line that is logged, the fault report
    naming the faulting address against ["No I2C devices found"]. *)
Theorem scan_fault_told_apart_by_log_only (bus1 bus2 : Bus) :
  faulted (i2cScanOn bus1) = true ->
  faulted (i2cScanOn bus2) = false ->
  acknowledged (i2cScanOn bus2) = [] ->
  returned (i2cScanOn bus1) = false
  /\ returned (i2cScanOn bus2) = false
  /\ (exists earlier a,
        probes (i2cScanOn bus1) = (earlier ++ [(a, 4)])%list
        /\ logged (i2cScanOn bus1) = faultReport a)
  /\ logged (i2cScanOn bus2) = "No I2C devices found"%string
  /\ logged (i2cScanOn bus1) <> logged (i2cScanOn bus2).
Proof.
  intros Hf1 Hf2 Hnone.
  destruct (i2cScanOn_inv bus1) as (_ & _ & Hfault & _).
  destruct (i2cScanOn_inv bus2) as (_ & _ & _ & Hclean).
  destruct (Hfault Hf1) as (Hret1 & earlier & a & Hpr & Hlog1 & _).
  destruct (Hclean Hf2) as (_ & Hzero & _).
  destruct Hzero as (Hret2 & Hlog2); [now rewrite Hnone|].
  split; [exact Hret1|]. split; [exact Hret2|]. split; [now exists earlier, a|].
  split; [exact Hlog2|].
  rewrite Hlog1, Hlog2. apply faultReport_not_empty_report.
Qed.

Lemma scan_fault_told_apart_by_log_only_witness :
  returned (i2cScanOn (busFaultAt 1 [])) = false
  /\ returned (i2cScanOn emptyBus) = false
  /\ (exists earlier a,
        probes (i2cScanOn (busFaultAt 1 [])) = (earlier ++ [(a, 4)])%list
        /\ logged (i2cScanOn (busFaultAt 1 [])) = faultReport a)
  /\ logged (i2cScanOn emptyBus) = "No I2C devices found"%string
  /\ logged (i2cScanOn (busFaultAt 1 [])) <> logged (i2cScanOn emptyBus).
Proof.
  apply (scan_fault_told_apart_by_log_only (busFaultAt 1 []) emptyBus); reflexivity.
Defined.

(** ** Programs as sequences of events *)

Lemma replay_app (s : State) (d1 d2 : list Event) :
  replay s (d1 ++ d2) = replay (replay s d1) d2.
Proof. apply fold_left_app. Qed.

Lemma trace_applyEvent (s : State) (e : Event) :
  trace (applyEvent s e) = (trace s ++ [e])%list.
Proof. destruct e; try reflexivity. destruct flag; reflexivity. Qed.

Lemma trace_replay (d : list Event) :
  forall s, trace (replay s d) = (trace s ++ d)%list.
Proof.
  induction d as [|e d IH]; intros s; cbn [replay fold_left].
  - now rewrite app_nil_r.
  - fold (replay (applyEvent s e) d). rewrite IH, trace_applyEvent.
    now rewrite <- app_assoc.
Qed.

Lemma eventsSince_replay (s : State) (d : list Event) :
  eventsSince s (replay s d) = d.
Proof.
  unfold eventsSince. rewrite trace_replay, skipn_app, skipn_all, Nat.sub_diag.
  reflexivity.
Qed.

Lemma addEvents_replay (s : State) (e : Event) :
  isAssignment e = false -> addEvents s [e] = replay s [e].
Proof. destruct e; (discriminate || reflexivity). Qed.

(** A projection of the state that no [allowed] event changes is the same
    after any number of them. *)
Lemma replay_keeps {X} (f : State -> X) (allowed : Event -> bool) :
  (forall s e, allowed e = true -> f (applyEvent s e) = f s) ->
  forall d s, forallb allowed d = true -> f (replay s d) = f s.
Proof.
  intros Hkeep. induction d as [|e d IH]; intros s Hd; [reflexivity|].
  cbn in Hd. apply andb_prop in Hd as [He Hd].
  cbn [replay fold_left]. fold (replay (applyEvent s e) d).
  rewrite IH by exact Hd. now apply Hkeep.
Qed.

Lemma Steps_refl (allowed : Event -> bool) (s : State) : Steps allowed s s.
Proof. now exists []. Qed.

Lemma Steps_trans (allowed : Event -> bool) (s1 s2 s3 : State) :
  Steps allowed s1 s2 -> Steps allowed s2 s3 -> Steps allowed s1 s3.
Proof.
  intros (d1 & H1 & ->) (d2 & H2 & ->). exists (d1 ++ d2)%list.
  now rewrite forallb_app, H1, H2, replay_app.
Qed.

Lemma bind_Ret_inv {A B} (m : M A) (k : A -> M B) (s s' : State) (b : B) :
  bind m k s = Ret b s' -> exists a s1, m s = Ret a s1 /\ k a s1 = Ret b s'.
Proof.
  unfold bind. destruct (m s) as [a s1|why s1]; [|discriminate]. eauto.
Qed.

Section Frame.

Variable allowed : Event -> bool.

Lemma steps_ret {A} (a : A) : steps allowed (ret a).
Proof. intros s. apply Steps_refl. Qed.

Lemma steps_get : steps allowed get.
Proof. intros s. apply Steps_refl. Qed.

Lemma steps_ask {A} (oracle : list Event -> A) : steps allowed (ask oracle).
Proof. intros s. apply Steps_refl. Qed.

Lemma steps_halt {A} : steps allowed (@halt A).
Proof. intros s. apply Steps_refl. Qed.

Lemma steps_bind {A B} (m : M A) (k : A -> M B) :
  steps allowed m -> (forall a, steps allowed (k a)) -> steps allowed (bind m k).
Proof.
  intros Hm Hk s. specialize (Hm s). unfold bind.
  destruct (m s) as [a s1|why s1]; cbn in Hm.
  - eapply Steps_trans; [exact Hm | apply Hk].
  - exact Hm.
Qed.

Lemma steps_when (b : bool) (m : M unit) :
  steps allowed m -> steps allowed (when b m).
Proof. destruct b; [auto | intros _; apply steps_ret]. Qed.

Lemma steps_emit (e : Event) :
  allowed e = true -> isAssignment e = false -> steps allowed (emit e).
Proof.
  intros Hok Hna s. exists [e]. cbn. rewrite Hok. split; [reflexivity|].
  now apply addEvents_replay.
Qed.

Lemma steps_setFlag (f : Flag) (v : bool) :
  allowed (SetFlag f v) = true -> steps allowed (setFlag f v).
Proof. intros Hok s. exists [SetFlag f v]. cbn. now rewrite Hok. Qed.

Lemma steps_setLastSampleTimestamp (v : Z) :
  allowed (SetLastSampleTimestamp v) = true -> steps allowed (setLastSampleTimestamp v).
Proof. intros Hok s. exists [SetLastSampleTimestamp v]. cbn. now rewrite Hok. Qed.

Lemma steps_emitAll (es : list Event) :
  (forall e, In e es -> allowed e = true /\ isAssignment e = false) ->
  steps allowed (emitAll es).
Proof.
  induction es as [|e es IH]; intros Hes; cbn [emitAll].
  - apply steps_ret.
  - apply steps_bind.
    + apply steps_emit; apply Hes; now left.
    + intros _. apply IH. intros e' He'. apply Hes. now right.
Qed.

Lemma steps_pollReady (n : nat) :
  (forall b, allowed (TofCheckForDataReady b) = true) ->
  allowed (Delay 1) = true ->
  steps allowed (pollReady n).
Proof.
  intros Hpoll Hdelay. induction n as [|n IH]; cbn [pollReady].
  - now apply steps_emit.
  - apply steps_bind; [now apply steps_emit|]. intros _.
    apply steps_bind; [now apply steps_emit|]. intros _. exact IH.
Qed.

Lemma steps_waitForDataReady (env : Env) :
  (forall b, allowed (TofCheckForDataReady b) = true) ->
  allowed (Delay 1) = true ->
  steps allowed (waitForDataReady env).
Proof.
  intros Hpoll Hdelay s. unfold waitForDataReady.
  destruct (distanceSensor_readyAfter env (trace s)) as [n|].
  - now apply steps_pollReady.
  - apply Steps_refl.
Qed.

Lemma steps_i2cScan (env : Env) :
  (forall a st, allowed (WireTransmission a st) = true) ->
  (forall line, allowed (LogInfo line) = true) ->
  steps allowed (i2cScan env).
Proof.
  intros Hwire Hlog. unfold i2cScan.
  apply steps_bind; [apply steps_ask|]. intros bus. cbn zeta.
  apply steps_bind.
  - apply steps_emitAll. intros e He. apply in_map_iff in He as (p & <- & _).
    split; [apply Hwire | reflexivity].
  - intros _. apply steps_bind; [|intros _; apply steps_ret].
    apply steps_emit; [apply Hlog | reflexivity].
Qed.

End Frame.

Section Stops.

Variable ok : StopKind -> bool.

Lemma stopsOnly_returns {A} (m : M A) :
  (forall s, stopped (m s) = None) -> stopsOnly ok m.
Proof. intros H s why Hs. rewrite H in Hs. discriminate. Qed.

Lemma stopsOnly_ret {A} (a : A) : stopsOnly ok (ret a).
Proof. now apply stopsOnly_returns. Qed.

Lemma stopsOnly_get : stopsOnly ok get.
Proof. now apply stopsOnly_returns. Qed.

Lemma stopsOnly_ask {A} (oracle : list Event -> A) : stopsOnly ok (ask oracle).
Proof. now apply stopsOnly_returns. Qed.

Lemma stopsOnly_emit (e : Event) : stopsOnly ok (emit e).
Proof. now apply stopsOnly_returns. Qed.

Lemma stopsOnly_setFlag (f : Flag) (v : bool) : stopsOnly ok (setFlag f v).
Proof. now apply stopsOnly_returns. Qed.

Lemma stopsOnly_setLastSampleTimestamp (v : Z) :
  stopsOnly ok (setLastSampleTimestamp v).
Proof. now apply stopsOnly_returns. Qed.

Lemma stopsOnly_halt {A} : ok Halted = true -> stopsOnly ok (@halt A).
Proof. intros Hok s why Hs. injection Hs as <-. exact Hok. Qed.

Lemma stopsOnly_bind {A B} (m : M A) (k : A -> M B) :
  stopsOnly ok m -> (forall a, stopsOnly ok (k a)) -> stopsOnly ok (bind m k).
Proof.
  intros Hm Hk s why. specialize (Hm s). unfold bind.
  destruct (m s) as [a s1|why1 s1]; [apply Hk | apply Hm].
Qed.

Lemma stopsOnly_when (b : bool) (m : M unit) :
  stopsOnly ok m -> stopsOnly ok (when b m).
Proof. destruct b; [auto | intros _; apply stopsOnly_ret]. Qed.

Lemma stopsOnly_emitAll (es : list Event) : stopsOnly ok (emitAll es).
Proof.
  induction es as [|e es IH]; cbn [emitAll]; [apply stopsOnly_ret|].
  apply stopsOnly_bind; [apply stopsOnly_emit | intros _; exact IH].
Qed.

Lemma stopsOnly_i2cScan (env : Env) : stopsOnly ok (i2cScan env).
Proof.
  unfold i2cScan. apply stopsOnly_bind; [apply stopsOnly_ask|]. intros bus. cbn zeta.
  apply stopsOnly_bind; [apply stopsOnly_emitAll|]. intros _.
  apply stopsOnly_bind; [apply stopsOnly_emit | intros _; apply stopsOnly_ret].
Qed.

Lemma stopsOnly_pollReady (n : nat) : stopsOnly ok (pollReady n).
Proof.
  induction n as [|n IH]; cbn [pollReady]; [apply stopsOnly_emit|].
  apply stopsOnly_bind; [apply stopsOnly_emit|]. intros _.
  apply stopsOnly_bind; [apply stopsOnly_emit | intros _; exact IH].
Qed.

Lemma stopsOnly_waitForDataReady (env : Env) :
  ok Spinning = true -> stopsOnly ok (waitForDataReady env).
Proof.
  intros Hok s why. unfold waitForDataReady.
  destruct (distanceSensor_readyAfter env (trace s)) as [n|].
  - apply stopsOnly_pollReady.
  - intros Hs. injection Hs as <-. exact Hok.
Qed.

End Stops.

Lemma stopsOnly_never_total {A} (m : M A) : stopsOnly never m -> total m.
Proof.
  intros H s. specialize (H s). destruct (stopped (m s)) as [why|]; [|reflexivity].
  specialize (H why eq_refl). discriminate.
Qed.

Create HintDb sketch.

#[local] Hint Unfold Wire_begin pinMode digitalWrite delay Log_info Serial_println
  accel_setup_ accel_getSample_ distanceSensor_begin_ distanceSensor_getDistance_
  fram_get_ ab1805_detectChip_ millis_
  initLIS3DH initTOF initFRAM initRTC setupDecision setup
  sampleTOF sampleLIS3DH sampleRound powerCycleDecision powerCycleTest sampleIfDue
  powerCycleIfArmed loop : sketch.

(** Splits a [steps] goal along the program text down to single events. *)
Ltac steps_split :=
  autounfold with sketch;
  repeat match goal with
    | |- steps _ (bind _ _) => apply steps_bind; [|intro]
    | |- steps _ (when _ _) => apply steps_when
    | |- steps _ (ret _) => apply steps_ret
    | |- steps _ get => apply steps_get
    | |- steps _ (ask _) => apply steps_ask
    | |- steps _ halt => apply steps_halt
    | |- steps _ (emit _) => apply steps_emit; reflexivity
    | |- steps _ (setFlag _ _) => apply steps_setFlag; reflexivity
    | |- steps _ (setLastSampleTimestamp _) =>
        apply steps_setLastSampleTimestamp; reflexivity
    | |- steps _ (i2cScan _) => apply steps_i2cScan; reflexivity
    | |- steps _ (waitForDataReady _) =>
        apply steps_waitForDataReady; [intros []|]; reflexivity
    | |- steps _ (if ?b then _ else _) => destruct b
    | |- steps _ (match ?x with _ => _ end) => destruct x
    end.

(** Splits a [stopsOnly] goal in the same way. *)
Ltac stops_split :=
  autounfold with sketch;
  repeat match goal with
    | |- stopsOnly _ (bind _ _) => apply stopsOnly_bind; [|intro]
    | |- stopsOnly _ (when _ _) => apply stopsOnly_when
    | |- stopsOnly _ (ret _) => apply stopsOnly_ret
    | |- stopsOnly _ get => apply stopsOnly_get
    | |- stopsOnly _ (ask _) => apply stopsOnly_ask
    | |- stopsOnly _ halt => apply stopsOnly_halt; reflexivity
    | |- stopsOnly _ (emit _) => apply stopsOnly_emit
    | |- stopsOnly _ (setFlag _ _) => apply stopsOnly_setFlag
    | |- stopsOnly _ (setLastSampleTimestamp _) =>
        apply stopsOnly_setLastSampleTimestamp
    | |- stopsOnly _ (i2cScan _) => apply stopsOnly_i2cScan
    | |- stopsOnly _ (waitForDataReady _) =>
        apply stopsOnly_waitForDataReady; reflexivity
    | |- stopsOnly _ (if ?b then _ else _) => destruct b
    | |- stopsOnly _ (match ?x with _ => _ end) => destruct x
    end.

Ltac total_split := apply stopsOnly_never_total; stops_split.

(** ** The one-shot self-test *)

Lemma keepsLatch_flag (s s' : State) :
  Steps keepsLatch s s' ->
  powerCycleOnce s' = powerCycleOnce s
  /\ selfTestRuns (trace s') = selfTestRuns (trace s).
Proof.
  intros (d & Hd & ->). split.
  - apply (replay_keeps powerCycleOnce keepsLatch); [|exact Hd].
    intros s0 [] He; try reflexivity. destruct flag; (reflexivity || discriminate).
  - rewrite trace_replay. unfold selfTestRuns. rewrite filter_app.
    replace (filter isSelfTestStart d) with (@nil Event); [now rewrite app_nil_r|].
    clear s. induction d as [|e d IH]; [reflexivity|].
    cbn in Hd. apply andb_prop in Hd as [He Hd]. cbn.
    destruct e; cbn; auto. destruct flag; cbn; auto. discriminate.
Qed.

Section SelfTest.

Variable env : Env.

Lemma setup_keepsLatch : steps keepsLatch (setup env).
Proof. steps_split. Qed.

Lemma sampleIfDue_keepsLatch : steps keepsLatch (sampleIfDue env).
Proof. steps_split. Qed.

(** Line 163 is the first thing the self-test does, and nothing after it
    touches the latch. *)
Lemma powerCycleTest_fires (s : State) :
  exists d,
    forallb keepsLatch d = true
    /\ stateOf (powerCycleTest env s) = replay s (SetFlag PowerCycleOnce false :: d).
Proof.
  unfold powerCycleTest.
  match goal with
  | |- context [bind (setFlag PowerCycleOnce false) ?k] =>
      assert (Hrest : steps keepsLatch (k tt)) by (cbv beta; steps_split)
  end.
  destruct (Hrest (stateOf (setFlag PowerCycleOnce false s))) as (d & Hd & Heq).
  exists d. split; [exact Hd|]. exact Heq.
Qed.

Lemma powerCycleTest_latch (s : State) :
  powerCycleOnce (stateOf (powerCycleTest env s)) = false
  /\ selfTestRuns (trace (stateOf (powerCycleTest env s))) = S (selfTestRuns (trace s)).
Proof.
  destruct (powerCycleTest_fires s) as (d & Hd & ->).
  change (replay s (SetFlag PowerCycleOnce false :: d))
    with (replay (stateOf (setFlag PowerCycleOnce false s)) d).
  destruct (keepsLatch_flag (stateOf (setFlag PowerCycleOnce false s))
              (replay (stateOf (setFlag PowerCycleOnce false s)) d)) as [Hflag Hruns].
  { now exists d. }
  rewrite Hflag, Hruns. split; [reflexivity|].
  cbn [setFlag stateOf trace]. unfold selfTestRuns.
  rewrite filter_app, length_app. cbn. lia.
Qed.

Lemma powerCycleIfArmed_latchInv (s : State) :
  latchInv s -> latchInv (stateOf (powerCycleIfArmed env s)).
Proof.
  unfold latchInv, powerCycleIfArmed, bind, get.
  destruct (powerCycleOnce s) eqn:Harmed; cbn [when]; intros Hinv.
  - destruct (powerCycleTest_latch s) as [-> ->]. lia.
  - cbn. now rewrite Harmed.
Qed.

Lemma loop_latchInv (s : State) : latchInv s -> latchInv (stateOf (loop env s)).
Proof.
  intros Hinv. unfold loop, bind.
  destruct (keepsLatch_flag _ _ (sampleIfDue_keepsLatch s)) as [Hflag Hruns].
  assert (Hinv1 : latchInv (stateOf (sampleIfDue env s))).
  { unfold latchInv. now rewrite Hflag, Hruns. }
  destruct (sampleIfDue env s) as [[] s1|why s1]; cbn [stateOf] in *.
  - now apply powerCycleIfArmed_latchInv.
  - exact Hinv1.
Qed.

Lemma loops_latchInv (n : nat) :
  forall s, latchInv s -> latchInv (stateOf (loops env n s)).
Proof.
  induction n as [|n IH]; intros s Hinv; cbn [loops]; [exact Hinv|].
  unfold bind. pose proof (loop_latchInv s Hinv) as Hloop.
  destruct (loop env s) as [[] s1|why s1]; cbn [stateOf] in *; auto.
Qed.

Lemma run_latchInv (n : nat) : latchInv (stateOf (run env n)).
Proof.
  unfold run, bind.
  destruct (keepsLatch_flag _ _ (setup_keepsLatch bootState)) as [Hflag Hruns].
  assert (Hinv : latchInv (stateOf (setup env bootState))).
  { unfold latchInv. rewrite Hflag, Hruns. cbn. lia. }
  destruct (setup env bootState) as [[] s1|why s1]; cbn [stateOf] in *.
  - now apply loops_latchInv.
  - exact Hinv.
Qed.

(** A pass through [loop] with the latch released runs no self-test. *)
Lemma loop_released (s : State) :
  powerCycleOnce s = false ->
  powerCycleOnce (stateOf (loop env s)) = false
  /\ selfTestRuns (trace (stateOf (loop env s))) = selfTestRuns (trace s).
Proof.
  intros Hoff. unfold loop, bind.
  destruct (keepsLatch_flag _ _ (sampleIfDue_keepsLatch s)) as [Hflag Hruns].
  destruct (sampleIfDue env s) as [[] s1|why s1]; cbn [stateOf] in *.
  - unfold powerCycleIfArmed, bind, get. rewrite Hflag, Hoff. cbn.
    split; congruence.
  - split; congruence.
Qed.

End SelfTest.

(** C3: the latch is armed at boot; the self-test's first action releases
    it; a pass through [loop] with the latch released runs no self-test;
    and however many passes the process makes, line 163 (hence the
    self-test body) is executed at most once. *)
Theorem selftest_at_most_once (env : Env) (n : nat) :
  powerCycleOnce bootState = true
  /\ (forall s, exists d,
        eventsSince s (stateOf (powerCycleTest env s)) = SetFlag PowerCycleOnce false :: d
        /\ powerCycleOnce (stateOf (powerCycleTest env s)) = false)
  /\ (forall s, powerCycleOnce s = false ->
        powerCycleOnce (stateOf (loop env s)) = false
        /\ selfTestRuns (trace (stateOf (loop env s))) = selfTestRuns (trace s))
  /\ (selfTestRuns (trace (stateOf (run env n))) <= 1)%nat.
Proof.
  split; [reflexivity|]. split; [|split].
  - intros s. destruct (powerCycleTest_fires env s) as (d & Hd & Heq).
    exists d. split.
    + rewrite Heq. apply eventsSince_replay.
    + apply powerCycleTest_latch.
  - apply loop_released.
  - pose proof (run_latchInv env n) as Hinv. unfold latchInv in Hinv. lia.
Qed.

Lemma selftest_at_most_once_witness :
  powerCycleOnce sampledAt1000 = false
  /\ selfTestRuns (trace (stateOf (loop healthyEnv sampledAt1000))) = 0%nat
  /\ (selfTestRuns (trace (stateOf (run healthyEnv 3))) <= 1)%nat.
Proof.
  pose proof (selftest_at_most_once healthyEnv 3) as (_ & _ & Hreleased & Hrun).
  split; [reflexivity|]. split; [|exact Hrun].
  destruct (Hreleased sampledAt1000 eq_refl) as [_ Hsame]. exact Hsame.
Defined.

(** ** The sensor flags *)

Lemma keepsSensorsOn_flags (d : list Event) :
  forall s,
    forallb keepsSensorsOn d = true ->
    (sensorOnlineTOF s = true -> sensorOnlineTOF (replay s d) = true)
    /\ (sensorOnlineLIS3DH s = true -> sensorOnlineLIS3DH (replay s d) = true)
    /\ filter isSensorFlagCleared (trace (replay s d)) = filter isSensorFlagCleared (trace s).
Proof.
  induction d as [|e d IH]; intros s Hd.
  - repeat split; auto.
  - cbn in Hd. apply andb_prop in Hd as [He Hd].
    cbn [replay fold_left]. fold (replay (applyEvent s e) d).
    destruct (IH (applyEvent s e) Hd) as (Htof & Hlis & Htrace).
    rewrite Htrace, trace_applyEvent, filter_app.
    unfold keepsSensorsOn in He. apply negb_true_iff in He.
    cbn [filter]. rewrite He, app_nil_r.
    repeat split.
    + intros H. apply Htof. destruct e; try exact H.
      destruct flag; try exact H. destruct value; [reflexivity | discriminate].
    + intros H. apply Hlis. destruct e; try exact H.
      destruct flag; try exact H. destruct value; [reflexivity | discriminate].
Qed.

Section SensorFlags.

Variable env : Env.

Lemma setup_keepsSensorsOn : steps keepsSensorsOn (setup env).
Proof. steps_split. Qed.

Lemma loop_keepsSensorsOn : steps keepsSensorsOn (loop env).
Proof. steps_split. Qed.

Lemma loops_keepsSensorsOn (n : nat) : steps keepsSensorsOn (loops env n).
Proof.
  induction n as [|n IH]; cbn [loops]; [apply steps_ret|].
  apply steps_bind; [apply loop_keepsSensorsOn | intros _; exact IH].
Qed.

(** [setup] returns only through the accepting branch of line 120. *)
Lemma setup_returns_online (s s' : State) :
  setup env s = Ret tt s' ->
  sensorOnlineLIS3DH s' = true /\ sensorOnlineTOF s' = true /\ carrierOnline s' = true.
Proof.
  unfold setup. intros H.
  do 10 (apply bind_Ret_inv in H as (? & ? & _ & H)).
  unfold setupDecision, bind, get in H.
  match type of H with
  | (if ?c then _ else _) _ = _ => destruct c eqn:Hall; [|discriminate]
  end.
  injection H as <-. cbn.
  apply andb_prop in Hall as [Hall Hc]. apply andb_prop in Hall as [Hl Ht]. auto.
Qed.

End SensorFlags.

(** C8: no pass of the process ever assigns [false] to [sensorOnlineTOF] or
    [sensorOnlineLIS3DH]; once [setup] has returned both flags are true
    after any number of passes through [loop]; and a failed initialisation
    call leaves its flag as it was. *)
Theorem sensor_flags_never_cleared (env : Env) (n : nat) :
  filter isSensorFlagCleared (trace (stateOf (run env n))) = []
  /\ (stopped (run env 0) = None ->
      sensorOnlineTOF (stateOf (run env n)) = true
      /\ sensorOnlineLIS3DH (stateOf (run env n)) = true)
  /\ (forall s, accel_setup env (trace s) = false ->
      sensorOnlineLIS3DH (stateOf (initLIS3DH env s)) = sensorOnlineLIS3DH s)
  /\ (forall s, distanceSensor_begin env (trace s) <> 0 ->
      sensorOnlineTOF (stateOf (initTOF env s)) = sensorOnlineTOF s).
Proof.
  split; [|split; [|split]].
  - assert (Hrun : steps keepsSensorsOn (bind (setup env) (fun _ => loops env n))).
    { apply steps_bind; [apply setup_keepsSensorsOn|].
      intros _. apply loops_keepsSensorsOn. }
    destruct (Hrun bootState) as (d & Hd & Heq).
    unfold run. rewrite Heq.
    now destruct (keepsSensorsOn_flags d bootState Hd) as (_ & _ & ->).
  - unfold run, bind. destruct (setup env bootState) as [[] s1|why s1] eqn:Hsetup;
      [|discriminate].
    intros _. destruct (setup_returns_online env _ _ Hsetup) as (Hl & Ht & _).
    destruct (loops_keepsSensorsOn env n s1) as (d & Hd & ->).
    destruct (keepsSensorsOn_flags d s1 Hd) as (Htof & Hlis & _). auto.
  - intros s Hfail. unfold initLIS3DH, accel_setup_, bind, ask. cbn.
    rewrite Hfail. reflexivity.
  - intros s Hfail. unfold initTOF, distanceSensor_begin_, bind, ask. cbn.
    destruct (Z.eqb_spec (distanceSensor_begin env (trace s)) 0); [contradiction|].
    reflexivity.
Qed.

Lemma sensor_flags_never_cleared_witness :
  stopped (run accelLostEnv 0) = None
  /\ accel_setup accelLostEnv (trace (stateOf (run accelLostEnv 0))) = false
  /\ sensorOnlineTOF (stateOf (run accelLostEnv 1)) = true
  /\ sensorOnlineLIS3DH (stateOf (run accelLostEnv 1)) = true
  /\ sensorOnlineLIS3DH (stateOf (initLIS3DH accelLostEnv (stateOf (run accelLostEnv 0))))
     = sensorOnlineLIS3DH (stateOf (run accelLostEnv 0)).
Proof.
  pose proof (sensor_flags_never_cleared accelLostEnv 1) as (_ & Hon & Hlis & _).
  assert (Hret : stopped (run accelLostEnv 0) = None) by (vm_compute; reflexivity).
  assert (Hfail : accel_setup accelLostEnv (trace (stateOf (run accelLostEnv 0))) = false)
    by (vm_compute; reflexivity).
  split; [exact Hret|]. split; [exact Hfail|].
  split; [exact (proj1 (Hon Hret))|]. split; [exact (proj2 (Hon Hret))|].
  exact (Hlis _ Hfail).
Defined.

(** ** The stages of [setup] *)

Section Stages.

Variable env : Env.

Lemma initFRAM_run (s : State) :
  let stored := fram_get env (trace (replay s [FramBegin])) FRAM.versionAddr mod 256 in
  let readBack :=
    fram_get env
      (trace (replay s [FramBegin; FramGet FRAM.versionAddr stored;
                        LogInfo "FRAM Module initializing version 42";
                        FramErase; FramPut FRAM.versionAddr FRAMversionNumber]))
      FRAM.versionAddr mod 256 in
  initFRAM env s = Ret tt (replay s (framStage stored readBack)).
Proof.
  cbv zeta. unfold initFRAM, framStage, fram_get_, Log_info, bind, ask.
  cbn -[Z.modulo Z.eqb fmt_i].
  destruct (_ mod 256 =? FRAMversionNumber); cbn -[Z.modulo Z.eqb fmt_i];
    [reflexivity|].
  destruct (_ mod 256 =? FRAMversionNumber); reflexivity.
Qed.

Lemma initRTC_run (s : State) :
  let found :=
    ab1805_detectChip env (trace (replay s [RtcSetup D8; RtcSetWDT WATCHDOG_MAX_SECONDS])) in
  initRTC env s = Ret tt (replay s (rtcStage found (carrierOnline s))).
Proof.
  cbv zeta. unfold initRTC, rtcStage, ab1805_detectChip_, Log_info, bind, ask, get.
  cbn. destruct (ab1805_detectChip env _); cbn; [reflexivity|].
  destruct (carrierOnline s); reflexivity.
Qed.

Lemma setupDecision_run (s : State) :
  setupDecision s =
  if sensorOnlineLIS3DH s && sensorOnlineTOF s && carrierOnline s
  then Ret tt (replay s acceptEvents)
  else Stop Halted (replay s [LogInfo haltLine]).
Proof.
  unfold setupDecision, bind, get.
  destruct (sensorOnlineLIS3DH s && sensorOnlineTOF s && carrierOnline s); reflexivity.
Qed.

End Stages.

Lemma beforeCarrier_reads (d : list Event) :
  forallb beforeCarrier d = true ->
  framReads d = [] /\ rtcDetections d = [] /\ framOps d = [].
Proof.
  induction d as [|e d IH]; intros Hd; [repeat split|].
  cbn in Hd. apply andb_prop in Hd as [He Hd].
  destruct (IH Hd) as (Hr & Hdet & Hops).
  unfold framReads, rtcDetections, framOps in *. cbn. rewrite Hr, Hdet, Hops.
  destruct e; try discriminate; repeat split.
Qed.

(** One step of a prefix that always returns and only adds [allowed]
    events. *)
Lemma prefix_step (allowed : Event -> bool) {A} (m : M A) (k : A -> M unit)
    (rest : M unit) (s0 s : State) :
  steps allowed m ->
  total m ->
  Steps allowed s0 s ->
  (forall a s1, Steps allowed s0 s1 ->
     exists s', Steps allowed s0 s' /\ k a s1 = rest s') ->
  exists s', Steps allowed s0 s' /\ bind m k s = rest s'.
Proof.
  intros Hsteps Htotal Hs0 Hk. unfold bind.
  specialize (Hsteps s). specialize (Htotal s).
  destruct (m s) as [a s1|why s1]; [|discriminate].
  apply Hk. eapply Steps_trans; eassumption.
Qed.

(** Runs a program through its leading statements for as long as they
    always return and only add [allowed] events. *)
Ltac prefix_steps :=
  repeat match goal with
    | |- exists _, _ /\ bind _ _ _ = _ =>
        eapply prefix_step;
        [solve [steps_split] | solve [total_split] | eassumption | intros ? ? ?]
    end;
  match goal with
  | |- exists _, _ /\ _ ?x = _ => exists x; split; [assumption | reflexivity]
  end.

Section Setup.

Variable env : Env.

(** Lines 60-87 always run through, and leave the carrier alone. *)
Lemma setup_prefix (s : State) :
  exists s1,
    Steps beforeCarrier s s1
    /\ setup env s = (initFRAM env;; initRTC env;; setupDecision) s1.
Proof.
  unfold setup. pose proof (Steps_refl beforeCarrier s) as H0.
  prefix_steps.
Qed.

(** [setup] as its three carrier stages on top of the prefix [d0]. *)
Lemma setup_stages (s : State) :
  exists d0 stored readBack found,
    forallb beforeCarrier d0 = true
    /\ let dF := framStage stored readBack in
       let sF := replay (replay s d0) dF in
       let dR := rtcStage found (carrierOnline sF) in
       setup env s = setupDecision (replay sF dR).
Proof.
  destruct (setup_prefix s) as (s1 & (d0 & Hd0 & ->) & ->).
  unfold bind at 1. rewrite initFRAM_run. cbv beta iota zeta.
  unfold bind at 1. rewrite initRTC_run. cbv beta iota zeta.
  eexists d0, _, _, _. split; [exact Hd0 | reflexivity].
Qed.

End Setup.

(** Everything [setup] adds to the trace: the prefix, the store check, the
    RTC check and one of the two endings. *)
Lemma setup_events (env : Env) (s : State) :
  exists d0 stored readBack found dD,
    let dF := framStage stored readBack in
    let dR := rtcStage found (carrierOnline (replay (replay s d0) dF)) in
    forallb beforeCarrier d0 = true
    /\ stateOf (setup env s) = replay s (d0 ++ dF ++ dR ++ dD)%list
    /\ ((dD = acceptEvents /\ stopped (setup env s) = None)
        \/ (dD = [LogInfo haltLine] /\ stopped (setup env s) = Some Halted)).
Proof.
  destruct (setup_stages env s) as (d0 & stored & readBack & found & Hd0 & Heq).
  cbv zeta in Heq. rewrite Heq, setupDecision_run.
  exists d0, stored, readBack, found.
  match goal with
  | |- context [if ?c then _ else _] => destruct c
  end.
  - exists acceptEvents. cbv zeta. split; [exact Hd0|]. split; [|now left].
    now rewrite !replay_app.
  - exists [LogInfo haltLine]. cbv zeta. split; [exact Hd0|]. split; [|now right].
    now rewrite !replay_app.
Qed.

Lemma bind_assoc_run {A B C} (m : M A) (k : A -> M B) (h : B -> M C) (s : State) :
  bind (bind m k) h s = bind m (fun a => bind (k a) h) s.
Proof. unfold bind. destruct (m s); reflexivity. Qed.

Lemma bind_ext {A B} (m : M A) (k k' : A -> M B) (s : State) :
  (forall a s1, k a s1 = k' a s1) -> bind m k s = bind m k' s.
Proof. intros Hk. unfold bind. destruct (m s); [apply Hk | reflexivity]. Qed.

Section CarrierChecks.

Variable env : Env.

(** [setup] is lines 60-87 followed by the three carrier stages. *)
Lemma setup_split (s : State) :
  setup env s = (beforeFRAM env;; initFRAM env;; initRTC env;; setupDecision) s.
Proof.
  unfold setup, beforeFRAM.
  repeat match goal with
    | |- bind ?m ?k ?s0 = bind (bind ?m ?k1) ?h ?s0 =>
        rewrite (bind_assoc_run m k1 h s0); apply bind_ext; intros ? ?; cbv beta
    end.
  reflexivity.
Qed.

Lemma beforeFRAM_steps : steps beforeCarrier (beforeFRAM env).
Proof. unfold beforeFRAM. steps_split. Qed.

Lemma beforeFRAM_total : total (beforeFRAM env).
Proof. unfold beforeFRAM. total_split. Qed.

(** [setup] with the answers of the store and of the RTC spelled out. *)
Lemma setup_carrier_run (s : State) :
  let s1 := stateOf (beforeFRAM env s) in
  let stored := fram_get env (trace (replay s1 [FramBegin])) FRAM.versionAddr mod 256 in
  let readBack :=
    fram_get env
      (trace (replay s1 [FramBegin; FramGet FRAM.versionAddr stored;
                         LogInfo "FRAM Module initializing version 42";
                         FramErase; FramPut FRAM.versionAddr FRAMversionNumber]))
      FRAM.versionAddr mod 256 in
  let sF := replay s1 (framStage stored readBack) in
  let found :=
    ab1805_detectChip env (trace (replay sF [RtcSetup D8; RtcSetWDT WATCHDOG_MAX_SECONDS])) in
  setup env s = setupDecision (replay sF (rtcStage found (carrierOnline sF))).
Proof.
  cbv zeta. rewrite setup_split. unfold bind at 1.
  pose proof (beforeFRAM_total s) as Htotal.
  destruct (beforeFRAM env s) as [[] s1|why s1]; [|discriminate Htotal].
  cbn [stateOf].
  unfold bind at 1. rewrite initFRAM_run. cbv beta iota zeta.
  unfold bind at 1. rewrite initRTC_run. reflexivity.
Qed.

End CarrierChecks.

(** C2: let [stored] be the version byte the store answers when [setup]
    reads it, [readBack] the byte it answers after erase and put, and
    [found] the answer of [detectChip].  In the state [setup] leaves behind,
    whether it returns or halts, [carrierOnline] is the conjunction of the
    store-integrity check ([stored] is 42, or else [readBack] is 42) and of
    [found], whatever the globals held before and whatever the other
    devices answered; and these two outcomes are the ones recorded in the
    events of [setup]. *)
Theorem carrierOnline_is_and_of_checks (env : Env) (s : State) :
  let s1 := stateOf (beforeFRAM env s) in
  let stored := fram_get env (trace s1 ++ [FramBegin])%list FRAM.versionAddr mod 256 in
  let readBack :=
    fram_get env
      (trace s1 ++ [FramBegin; FramGet FRAM.versionAddr stored;
                    LogInfo "FRAM Module initializing version 42";
                    FramErase; FramPut FRAM.versionAddr FRAMversionNumber])%list
      FRAM.versionAddr mod 256 in
  let storeOk := (stored =? FRAMversionNumber) || (readBack =? FRAMversionNumber) in
  let found :=
    ab1805_detectChip env
      (trace (stateOf (initFRAM env s1))
       ++ [RtcSetup D8; RtcSetWDT WATCHDOG_MAX_SECONDS])%list in
  carrierOnline (stateOf (setup env s)) = storeOk && found
  /\ storeCheckPassed (eventsSince s (stateOf (setup env s))) = storeOk
  /\ rtcCheckPassed (eventsSince s (stateOf (setup env s))) = found.
Proof.
  cbv zeta. rewrite setup_carrier_run. cbv zeta.
  destruct (beforeFRAM_steps env s) as (d0 & Hd0 & Hs1).
  rewrite initFRAM_run. cbv zeta. cbn [stateOf].
  generalize dependent (stateOf (beforeFRAM env s)). intros s1 Hs1.
  rewrite !trace_replay.
  set (stored := fram_get env (trace s1 ++ [FramBegin])%list FRAM.versionAddr mod 256).
  match goal with
  | |- context [framStage stored ?r] => set (readBack := r)
  end.
  match goal with
  | |- context [rtcStage ?f _] => set (found := f)
  end.
  destruct (beforeCarrier_reads d0 Hd0) as (Hreads & Hdet & _).
  assert (Hsince : forall dF dR dD,
             eventsSince s (replay (replay (replay s1 dF) dR) dD)
             = (d0 ++ dF ++ dR ++ dD)%list).
  { intros. subst s1. rewrite <- !replay_app. apply eventsSince_replay. }
  clearbody stored readBack found. clear Hs1.
  rewrite setupDecision_run.
  unfold storeCheckPassed, rtcCheckPassed, framReads, rtcDetections in *.
  unfold framStage, rtcStage.
  destruct (stored =? FRAMversionNumber) eqn:Estored;
    destruct (readBack =? FRAMversionNumber) eqn:Eback;
    destruct found; cbn -[Z.eqb eventsSince replay];
    match goal with
    | |- context [if ?c then _ else _] => destruct c
    end;
    cbn [stateOf]; rewrite !Hsince, !flat_map_app, Hreads, Hdet;
    cbn -[Z.eqb]; rewrite ?Estored, ?Eback; repeat split.
Qed.

(** A healthy board, a blank store that takes the stamp, and a carrier
    whose store and RTC do not answer. *)
Lemma carrierOnline_is_and_of_checks_witness :
  carrierOnline (stateOf (setup healthyEnv bootState)) = true
  /\ carrierOnline (stateOf (setup blankStoreEnv bootState)) = true
  /\ carrierOnline (stateOf (setup deadCarrierEnv bootState)) = false
  /\ storeCheckPassed (eventsSince bootState (stateOf (setup deadCarrierEnv bootState)))
     = false
  /\ rtcCheckPassed (eventsSince bootState (stateOf (setup deadCarrierEnv bootState)))
     = false.
Proof.
  split; [|split; [|split]].
  - exact (proj1 (carrierOnline_is_and_of_checks healthyEnv bootState)).
  - exact (proj1 (carrierOnline_is_and_of_checks blankStoreEnv bootState)).
  - exact (proj1 (carrierOnline_is_and_of_checks deadCarrierEnv bootState)).
  - exact (proj2 (carrierOnline_is_and_of_checks deadCarrierEnv bootState)).
Defined.

(** C10: whatever the devices answer and whatever state [setup] starts in,
    [setup] arms the watchdog with [WATCHDOG_MAX_SECONDS], and only after
    that takes its terminal decision: the events that follow the arming end
    with the accepting lines when [setup] returns and with the halting line
    when it halts; [setup] ends in no other way. *)
Theorem watchdog_armed_before_decision (env : Env) (s : State) :
  exists before after,
    eventsSince s (stateOf (setup env s))
    = (before ++ RtcSetWDT WATCHDOG_MAX_SECONDS :: after)%list
    /\ ((stopped (setup env s) = None
         /\ exists checks, after = (checks ++ acceptEvents)%list)
        \/ (stopped (setup env s) = Some Halted
            /\ exists checks, after = (checks ++ [LogInfo haltLine])%list)).
Proof.
  destruct (setup_events env s) as (d0 & stored & readBack & found & dD & Hd0 & Heq & HdD).
  cbv zeta in Heq. rewrite Heq, eventsSince_replay.
  set (dF := framStage stored readBack).
  set (online := carrierOnline (replay (replay s d0) dF)).
  exists (d0 ++ dF ++ [RtcSetup D8])%list.
  exists (skipn 2 (rtcStage found online) ++ dD)%list.
  split.
  - rewrite <- !app_assoc. reflexivity.
  - destruct HdD as [[-> Hret] | [-> Hhalt]]; [left | right]; eauto.
Qed.

(** C6: [initFRAM] always returns.  When the version byte the store
    answers is 42, the only store operations are [begin] and the one [get],
    and the check passes.  When it is not 42, the store is erased, 42 is put
    at the version address and the byte is read again, in that order; the
    check passes exactly when the byte the store answers after the put is
    42, and is marked failed otherwise. *)
Theorem fram_version_check (env : Env) (s : State) :
  let stored := fram_get env (trace s ++ [FramBegin])%list FRAM.versionAddr mod 256 in
  let readBack :=
    fram_get env
      (trace s ++ [FramBegin; FramGet FRAM.versionAddr stored;
                   LogInfo "FRAM Module initializing version 42";
                   FramErase; FramPut FRAM.versionAddr FRAMversionNumber])%list
      FRAM.versionAddr mod 256 in
  stopped (initFRAM env s) = None
  /\ (stored = FRAMversionNumber ->
      framOps (eventsSince s (stateOf (initFRAM env s)))
      = [FramBegin; FramGet FRAM.versionAddr stored]
      /\ carrierOnline (stateOf (initFRAM env s)) = true)
  /\ (stored <> FRAMversionNumber ->
      framOps (eventsSince s (stateOf (initFRAM env s)))
      = [FramBegin; FramGet FRAM.versionAddr stored; FramErase;
         FramPut FRAM.versionAddr FRAMversionNumber;
         FramGet FRAM.versionAddr readBack]
      /\ carrierOnline (stateOf (initFRAM env s)) = (readBack =? FRAMversionNumber)).
Proof.
  cbv zeta. rewrite initFRAM_run. cbv zeta. rewrite !trace_replay.
  set (stored := fram_get env (trace s ++ [FramBegin])%list FRAM.versionAddr mod 256).
  match goal with
  | |- context [framStage stored ?r] => set (readBack := r)
  end.
  cbn [stopped stateOf]. rewrite eventsSince_replay.
  split; [reflexivity|]. unfold framStage. split.
  - intros Hsame. rewrite (proj2 (Z.eqb_eq _ _) Hsame). split; reflexivity.
  - intros Hdiff. rewrite (proj2 (Z.eqb_neq _ _) Hdiff).
    destruct (readBack =? FRAMversionNumber); split; reflexivity.
Qed.

(** The three ways through lines 93-107: a stamped store, a blank store
    that takes the stamp, and a store that answers 255 whatever is put. *)
Lemma fram_version_check_witness :
  (framOps (eventsSince bootState (stateOf (initFRAM healthyEnv bootState)))
   = [FramBegin; FramGet FRAM.versionAddr 42]
   /\ carrierOnline (stateOf (initFRAM healthyEnv bootState)) = true)
  /\ (framOps (eventsSince bootState (stateOf (initFRAM blankStoreEnv bootState)))
      = [FramBegin; FramGet FRAM.versionAddr 255; FramErase;
         FramPut FRAM.versionAddr FRAMversionNumber; FramGet FRAM.versionAddr 42]
      /\ carrierOnline (stateOf (initFRAM blankStoreEnv bootState)) = true)
  /\ (framOps (eventsSince bootState (stateOf (initFRAM deadCarrierEnv bootState)))
      = [FramBegin; FramGet FRAM.versionAddr 255; FramErase;
         FramPut FRAM.versionAddr FRAMversionNumber; FramGet FRAM.versionAddr 255]
      /\ carrierOnline (stateOf (initFRAM deadCarrierEnv bootState)) = false).
Proof.
  split; [|split].
  - apply (fram_version_check healthyEnv bootState). reflexivity.
  - apply (fram_version_check blankStoreEnv bootState). vm_compute. discriminate.
  - apply (fram_version_check deadCarrierEnv bootState). vm_compute. discriminate.
Defined.

(** ** The sampling interval *)

Lemma notSample_trace (d : list Event) :
  forallb notSample d = true -> sampleTaken d = false.
Proof.
  unfold sampleTaken. induction d as [|e d IH]; [reflexivity|].
  cbn. intros Hd. apply andb_prop in Hd as [He Hd].
  unfold notSample in He. apply negb_true_iff in He. now rewrite He, IH.
Qed.

Section Interval.

Variable env : Env.

Lemma powerCycleIfArmed_notSample : steps notSample (powerCycleIfArmed env).
Proof. steps_split. Qed.

Lemma setup_anyEvent : steps anyEvent (setup env).
Proof. steps_split. Qed.

Lemma loop_anyEvent : steps anyEvent (loop env).
Proof. steps_split. Qed.

Lemma sampling_anyEvent :
  steps anyEvent ((sampleTOF env;; sampleLIS3DH env);; powerCycleIfArmed env).
Proof. steps_split. Qed.

(** The pass when the interval has not run out: line 136 is false. *)
Lemma loop_not_due (s : State) :
  let now := ulong (millis env (trace s)) in
  (ulong (now - lastSampleTimestamp s) >? sampleRateMillis s) = false ->
  loop env s = powerCycleIfArmed env (replay s [Millis now]).
Proof.
  cbv zeta. intros Hdue. unfold loop, sampleIfDue, millis_, bind, ask, get.
  cbn -[Z.gtb Z.sub]. rewrite Hdue. reflexivity.
Qed.

(** The pass when it has: lines 137 onwards. *)
Lemma loop_due (s : State) :
  let now := ulong (millis env (trace s)) in
  let t := ulong (millis env (trace (replay s [Millis now]))) in
  (ulong (now - lastSampleTimestamp s) >? sampleRateMillis s) = true ->
  loop env s =
  ((sampleTOF env;; sampleLIS3DH env);; powerCycleIfArmed env)
    (replay s [Millis now; Millis t; SetLastSampleTimestamp t]).
Proof.
  cbv zeta. intros Hdue. unfold loop, sampleIfDue, sampleRound, millis_, bind, ask, get.
  cbn -[Z.gtb Z.sub]. rewrite Hdue. reflexivity.
Qed.

Lemma loops_anyEvent (n : nat) : steps anyEvent (loops env n).
Proof.
  induction n as [|n IH]; cbn [loops]; [apply steps_ret|].
  apply steps_bind; [apply loop_anyEvent | intros _; exact IH].
Qed.

(** No event changes [sampleRateMillis]. *)
Lemma run_sampleRate (n : nat) : sampleRateMillis (stateOf (run env n)) = 2000.
Proof.
  assert (Hrun : steps anyEvent (bind (setup env) (fun _ => loops env n))).
  { apply steps_bind; [apply setup_anyEvent | intros _; apply loops_anyEvent]. }
  destruct (Hrun bootState) as (d & Hd & Heq). unfold run. rewrite Heq.
  rewrite (replay_keeps sampleRateMillis anyEvent); [reflexivity | | exact Hd].
  intros s [] _; try reflexivity. destruct flag; reflexivity.
Qed.

End Interval.

(** C9: with the interval at 2000 ms, as it is throughout a run, a pass
    through [loop] takes a sample round exactly when the 32-bit difference
    between the tick count read at line 136 and [lastSampleTimestamp]
    is strictly greater than 2000; when it is exactly 2000 nothing of the
    sample round happens and [lastSampleTimestamp] keeps its value. *)
Theorem sample_only_after_interval (env : Env) (s : State) :
  sampleRateMillis s = 2000 ->
  let now := ulong (millis env (trace s)) in
  let elapsed := ulong (now - lastSampleTimestamp s) in
  (sampleTaken (eventsSince s (stateOf (loop env s))) = true <-> 2000 < elapsed)
  /\ (2000 < elapsed ->
      exists t d, eventsSince s (stateOf (loop env s))
                  = Millis now :: Millis t :: SetLastSampleTimestamp t :: d)
  /\ (elapsed = 2000 ->
      sampleTaken (eventsSince s (stateOf (loop env s))) = false
      /\ lastSampleTimestamp (stateOf (loop env s)) = lastSampleTimestamp s)
  /\ (forall n, sampleRateMillis (stateOf (run env n)) = 2000).
Proof.
  intros Hrate now elapsed.
  assert (Hdue : 2000 < elapsed ->
                 exists t d, eventsSince s (stateOf (loop env s))
                             = Millis now :: Millis t :: SetLastSampleTimestamp t :: d).
  { intros Hgt. rewrite loop_due.
    - match goal with
      | |- context [stateOf (_ ?x)] =>
          destruct (sampling_anyEvent env x) as (d & _ & Heq); rewrite Heq
      end.
      rewrite <- replay_app, eventsSince_replay. cbn [app]. eauto.
    - rewrite Hrate. apply Z.gtb_lt. exact Hgt. }
  assert (Hnot : elapsed <= 2000 ->
                 sampleTaken (eventsSince s (stateOf (loop env s))) = false
                 /\ lastSampleTimestamp (stateOf (loop env s)) = lastSampleTimestamp s).
  { intros Hle. rewrite loop_not_due.
    - match goal with
      | |- context [stateOf (_ ?x)] =>
          destruct (powerCycleIfArmed_notSample env x) as (d & Hd & Heq); rewrite Heq
      end.
      rewrite <- replay_app, eventsSince_replay. cbn [app]. split.
      + apply (notSample_trace (Millis now :: d)). cbn. exact Hd.
      + rewrite (replay_keeps lastSampleTimestamp notSample); [reflexivity | | exact Hd].
        intros s0 [] He; try reflexivity; try discriminate. destruct flag; reflexivity.
    - rewrite Hrate. fold now. fold elapsed.
      destruct (Z.gtb_spec elapsed 2000); [lia | reflexivity]. }
  split; [|split; [exact Hdue | split; [intros; apply Hnot; lia | apply run_sampleRate]]].
  split.
  - intros Htaken. destruct (Z.lt_ge_cases 2000 elapsed) as [Hgt|Hle]; [exact Hgt|].
    destruct Hnot as [Hfalse _]; [lia | congruence].
  - intros Hgt. destruct (Hdue Hgt) as (t & d & ->). reflexivity.
Qed.

(** The clock reads 3000 ms and the last sample was taken at 1000 ms: the
    elapsed time equals the interval and no sample is taken. *)
Lemma sample_only_after_interval_witness :
  ulong (ulong (millis (clockAt 3000) (trace sampledAt1000))
         - lastSampleTimestamp sampledAt1000) = 2000
  /\ sampleTaken (eventsSince sampledAt1000 (stateOf (loop (clockAt 3000) sampledAt1000)))
     = false
  /\ lastSampleTimestamp (stateOf (loop (clockAt 3000) sampledAt1000)) = 1000.
Proof.
  assert (Hrate : sampleRateMillis sampledAt1000 = 2000) by reflexivity.
  assert (Helapsed : ulong (ulong (millis (clockAt 3000) (trace sampledAt1000))
                            - lastSampleTimestamp sampledAt1000) = 2000) by reflexivity.
  split; [exact Helapsed|].
  exact (proj1 (proj2 (proj2 (sample_only_after_interval (clockAt 3000) sampledAt1000 Hrate)))
           Helapsed).
Defined.

(** ** The self-test after a failed re-initialisation *)

Section SelfTestHalt.

Variable env : Env.

(** Everything in the self-test before line 193 returns and clears no
    sensor flag. *)
Lemma powerCycleTest_prefix (s : State) :
  exists s1,
    Steps keepsSensorsOn s s1 /\ powerCycleTest env s = powerCycleDecision s1.
Proof.
  unfold powerCycleTest. pose proof (Steps_refl keepsSensorsOn s) as H0.
  prefix_steps.
Qed.

Lemma sampleIfDue_spinningOnly : stopsOnly spinningOnly (sampleIfDue env).
Proof. stops_split. Qed.

(** With both sensor flags set, a pass through [loop] cannot reach the
    [while(1)] of line 198. *)
Lemma loop_never_halts (s : State) :
  sensorOnlineTOF s = true ->
  sensorOnlineLIS3DH s = true ->
  stopped (loop env s) <> Some Halted.
Proof.
  intros Htof Hlis. unfold loop, bind.
  pose proof (sampleIfDue_spinningOnly s) as Hstop.
  assert (Hon : sensorOnlineTOF (stateOf (sampleIfDue env s)) = true
                /\ sensorOnlineLIS3DH (stateOf (sampleIfDue env s)) = true).
  { assert (Hs : steps keepsSensorsOn (sampleIfDue env)) by steps_split.
    destruct (Hs s) as (d & Hd & ->).
    destruct (keepsSensorsOn_flags d s Hd) as (H1 & H2 & _). auto. }
  destruct (sampleIfDue env s) as [[] s1|why s1]; cbn [stateOf stopped] in *.
  - destruct Hon as [Htof1 Hlis1].
    unfold powerCycleIfArmed, bind, get.
    destruct (powerCycleOnce s1); cbn [when]; [|discriminate].
    destruct (powerCycleTest_prefix s1) as (s2 & (d & Hd & ->) & ->).
    destruct (keepsSensorsOn_flags d s1 Hd) as (H1 & H2 & _).
    unfold powerCycleDecision, bind, get.
    rewrite H1, H2 by assumption. discriminate.
  - intros Hhalt. specialize (Hstop why eq_refl).
    injection Hhalt as ->. discriminate.
Qed.

Lemma loops_never_halt (n : nat) :
  forall s,
    sensorOnlineTOF s = true ->
    sensorOnlineLIS3DH s = true ->
    stopped (loops env n s) <> Some Halted.
Proof.
  induction n as [|n IH]; intros s Htof Hlis; cbn [loops]; [discriminate|].
  unfold bind. pose proof (loop_never_halts s Htof Hlis) as Hloop.
  destruct (loop_keepsSensorsOn env s) as (d & Hd & Heq).
  destruct (keepsSensorsOn_flags d s Hd) as (H1 & H2 & _).
  destruct (loop env s) as [[] s1|why s1]; cbn [stateOf stopped] in *.
  - subst s1. apply IH; auto.
  - exact Hloop.
Qed.

(** X16: the process halts only in [setup]: the halting branch of the
    self-test is never taken. *)
Lemma halt_only_in_setup (n : nat) :
  stopped (run env n) = Some Halted -> stopped (run env 0) = Some Halted.
Proof.
  unfold run, bind.
  destruct (setup env bootState) as [[] s1|why s1] eqn:Hsetup; [|auto].
  destruct (setup_returns_online env _ _ Hsetup) as (Hlis & Htof & _).
  intros Hhalt. now apply loops_never_halt in Hhalt.
Qed.

End SelfTestHalt.

(** C1, evaluated where the accelerometer answers [setup] but not the
    re-initialisation after the power cycle: [setup] returns with
    [sensorOnlineLIS3DH] set; in the first pass through [loop] the second
    [accel.setup] fails, [sensorOnlineLIS3DH] is still set afterwards, the
    self-test logs its success line and the process is not halted. *)
Theorem selftest_accel_failure_goes_unnoticed :
  stopped (run accelLostEnv 0) = None
  /\ sensorOnlineLIS3DH (stateOf (run accelLostEnv 0)) = true
  /\ filter isAccelSetup (trace (stateOf (run accelLostEnv 1)))
     = [AccelSetup RATE_100_HZ true; AccelSetup RATE_100_HZ false]
  /\ sensorOnlineLIS3DH (stateOf (run accelLostEnv 1)) = true
  /\ stopped (run accelLostEnv 1) = None
  /\ last (trace (stateOf (run accelLostEnv 1))) WireBegin
     = LogInfo "Power on test complete - measuring resumed".
Proof. vm_compute. repeat split. Qed.

(** ** Scenarios of the process *)

(** A healthy board: three passes, one self-test, samples taken. *)
Example healthy_run_3 :
  stopped (run healthyEnv 3) = None
  /\ selfTestRuns (trace (stateOf (run healthyEnv 3))) = 1%nat
  /\ sampleTaken (trace (stateOf (run healthyEnv 3))) = true.
Proof. vm_compute. repeat split. Qed.

(** A store that does not answer and an RTC that is not detected: [setup]
    halts, and no pass through [loop] samples or runs the self-test. *)
Example dead_carrier_halts :
  stopped (run deadCarrierEnv 5) = Some Halted
  /\ carrierOnline (stateOf (run deadCarrierEnv 5)) = false
  /\ sampleTaken (trace (stateOf (run deadCarrierEnv 5))) = false
  /\ selfTestRuns (trace (stateOf (run deadCarrierEnv 5))) = 0%nat.
Proof. vm_compute. repeat split. Qed.

(** A blank store takes the stamp and the process goes on to sample. *)
Example blank_store_stamped :
  stopped (run blankStoreEnv 2) = None
  /\ framOps (trace (stateOf (run blankStoreEnv 2)))
     = [FramBegin; FramGet 0 255; FramErase; FramPut 0 42; FramGet 0 42]
  /\ carrierOnline (stateOf (run blankStoreEnv 2)) = true
  /\ sampleTaken (trace (stateOf (run blankStoreEnv 2))) = true.
Proof. vm_compute. repeat split. Qed.

(** * Further properties *)

(** ** More on the bus scan *)

Lemma scanAddresses_bounds (a : Z) : In a scanAddresses <-> 1 <= a <= 126.
Proof.
  unfold scanAddresses. rewrite in_map_iff. split.
  - intros (k & <- & Hk). apply in_seq in Hk. lia.
  - intros Ha. exists (Z.to_nat a). split; [lia|]. apply in_seq. lia.
Qed.

Section ScanLoopMore.

Variable bus : Bus.

(** A loop left at its end or by [break] collected the first acknowledging
    addresses, as many as the cap still admitted. *)
Lemma scanLoop_first_acks (addresses : list Z) :
  forall n str pr n' str',
    0 <= n < 9 ->
    scanLoop bus addresses n str = (pr, LeftLoop n' str') ->
    ackOf pr = firstn (Z.to_nat (9 - n)) (acks bus addresses).
Proof.
  induction addresses as [|a rest IH]; intros n str pr n' str' Hn Hrun;
    cbn [scanLoop] in Hrun.
  - injection Hrun as <- _ _. now rewrite firstn_nil.
  - cbn [acks filter]. fold (acks bus rest).
    destruct (Z.eqb_spec (bus a) 0) as [E0|E0].
    + replace (Z.to_nat (9 - n)) with (S (Z.to_nat (9 - (n + 1)))) by lia.
      cbn [firstn].
      destruct (Z.eqb_spec (n + 1) 9) as [E9|E9].
      * injection Hrun as <- _ _. rewrite (ackOf_cons_ack _ _ _ E0).
        replace (Z.to_nat (9 - (n + 1))) with 0%nat by lia. reflexivity.
      * destruct (scanLoop bus rest (n + 1) _) as [pr' ex'] eqn:Erest.
        injection Hrun as <- ->. rewrite (ackOf_cons_ack _ _ _ E0).
        f_equal. eapply IH; [|exact Erest]. lia.
    + destruct (Z.eqb_spec (bus a) 4) as [E4|E4]; [discriminate|].
      destruct (scanLoop bus rest n str) as [pr' ex'] eqn:Erest.
      injection Hrun as <- ->. rewrite (ackOf_cons_other _ _ _ E0).
      eapply IH; eassumption.
Qed.

(** The transactions go through the addresses in the order given, from the
    first one on, without leaving any out. *)
Lemma scanLoop_prefix (addresses : list Z) :
  forall n str pr ex,
    scanLoop bus addresses n str = (pr, ex) ->
    exists rest, addresses = (map fst pr ++ rest)%list.
Proof.
  induction addresses as [|a rest IH]; intros n str pr ex Hrun; cbn [scanLoop] in Hrun.
  - injection Hrun as <- _. now exists [].
  - destruct (bus a =? 0).
    + destruct (n + 1 =? 9).
      * injection Hrun as <- _. now exists rest.
      * destruct (scanLoop bus rest (n + 1) _) as [pr' ex'] eqn:Erest.
        injection Hrun as <- _. destruct (IH _ _ _ _ Erest) as (more & ->).
        now exists more.
    + destruct (bus a =? 4).
      * injection Hrun as <- _. now exists rest.
      * destruct (scanLoop bus rest n str) as [pr' ex'] eqn:Erest.
        injection Hrun as <- _. destruct (IH _ _ _ _ Erest) as (more & ->).
        now exists more.
Qed.

(** The first address is always probed. *)
Lemma scanLoop_head (a : Z) (rest : list Z) (n : Z) (str : string) :
  exists later ex, scanLoop bus (a :: rest) n str = ((a, bus a) :: later, ex).
Proof.
  cbn [scanLoop]. destruct (bus a =? 0).
  - destruct (n + 1 =? 9); [now eexists; eexists|].
    destruct (scanLoop bus rest (n + 1) _) as [pr ex]. now eexists; eexists.
  - destruct (bus a =? 4); [now eexists; eexists|].
    destruct (scanLoop bus rest n str) as [pr ex]. now eexists; eexists.
Qed.

(** Addresses that neither acknowledge nor fault are stepped over. *)
Lemma scanLoop_silent (addresses : list Z) :
  forall n str,
    (forall a, In a addresses -> bus a <> 0 /\ bus a <> 4) ->
    scanLoop bus addresses n str =
    (map (fun a => (a, bus a)) addresses, LeftLoop n str).
Proof.
  induction addresses as [|a rest IH]; intros n str Hsilent; cbn [scanLoop map];
    [reflexivity|].
  destruct (Hsilent a (or_introl eq_refl)) as [H0 H4].
  destruct (Z.eqb_spec (bus a) 0); [contradiction|].
  destruct (Z.eqb_spec (bus a) 4); [contradiction|].
  rewrite IH; [reflexivity|]. intros x Hx. apply Hsilent. now right.
Qed.

End ScanLoopMore.

(** The acknowledgements a scan without bus fault records are the first
    nine of the bus. *)
Lemma i2cScanOn_first_acks (bus : Bus) :
  faulted (i2cScanOn bus) = false ->
  acknowledged (i2cScanOn bus) = firstn 9 (acks bus scanAddresses).
Proof.
  unfold i2cScanOn, acknowledged, faulted.
  destruct (scanLoop bus scanAddresses 0 (strncpy "i2c device(s) found at: " 128))
    as [pr ex] eqn:Erun.
  destruct ex as [r|n' str'].
  - apply scanLoop_inv in Erun; [|lia]. cbn zeta in Erun.
    destruct Erun as (_ & _ & _ & earlier & a & -> & _ & _).
    cbn [probes]. intros Hclean. exfalso. unfold faultIn in Hclean.
    rewrite existsb_app in Hclean. cbn in Hclean.
    rewrite orb_true_r in Hclean. discriminate.
  - intros _. apply scanLoop_first_acks in Erun; [|lia].
    change (Z.to_nat (9 - 0)) with 9%nat in Erun.
    destruct (n' =? 0); cbn [probes]; exact Erun.
Qed.

(** X1: a scan that met no bus fault reports the first nine addresses of
    1 .. 126 that acknowledge on the bus, in ascending order (all of them
    when there are fewer than nine): they are the acknowledgements it
    recorded and, when there is at least one, the line it logs is the
    device list of exactly these addresses and it returns 1; when there is
    none it logs ["No I2C devices found"] and returns 0. *)
Theorem scan_lists_first_nine_acks (bus : Bus) :
  faulted (i2cScanOn bus) = false ->
  acknowledged (i2cScanOn bus) = firstn 9 (acks bus scanAddresses)
  /\ (acks bus scanAddresses <> [] ->
      returned (i2cScanOn bus) = true
      /\ logged (i2cScanOn bus) = listReport (firstn 9 (acks bus scanAddresses)))
  /\ (acks bus scanAddresses = [] ->
      returned (i2cScanOn bus) = false
      /\ logged (i2cScanOn bus) = "No I2C devices found"%string).
Proof.
  intros Hclean. pose proof (i2cScanOn_first_acks bus Hclean) as Hack.
  destruct (i2cScanOn_inv bus) as (_ & _ & _ & Hinv).
  destruct (Hinv Hclean) as (_ & Hzero & Hsome).
  split; [exact Hack|]. rewrite <- Hack. split.
  - intros Hany. apply Hsome. rewrite Hack.
    destruct (acks bus scanAddresses); [contradiction | discriminate].
  - intros Hnone. apply Hzero. rewrite Hack, Hnone. reflexivity.
Qed.

Lemma scan_lists_first_nine_acks_witness :
  acknowledged (i2cScanOn twelveDevices) = [1; 2; 3; 4; 5; 6; 7; 8; 9]
  /\ returned (i2cScanOn twelveDevices) = true
  /\ logged (i2cScanOn twelveDevices)
     = listReport (firstn 9 (acks twelveDevices scanAddresses)).
Proof.
  destruct (scan_lists_first_nine_acks twelveDevices eq_refl) as (Hack & Hsome & _).
  split; [exact Hack|]. apply Hsome. vm_compute. discriminate.
Defined.

(** X2: [i2cScan] returns 1 exactly when the scan met no bus fault and at
    least one address acknowledged. *)
Theorem scan_returns_true_iff (bus : Bus) :
  returned (i2cScanOn bus) = true
  <-> faulted (i2cScanOn bus) = false /\ acknowledged (i2cScanOn bus) <> [].
Proof.
  destruct (i2cScanOn_inv bus) as (_ & _ & Hfault & Hclean).
  destruct (faulted (i2cScanOn bus)).
  - destruct Hfault as [Hret _]; [reflexivity|]. rewrite Hret.
    split; [discriminate | intros [H _]; discriminate].
  - destruct Hclean as (_ & Hzero & Hsome); [reflexivity|].
    destruct (acknowledged (i2cScanOn bus)) as [|a l] eqn:Eack.
    + destruct Hzero as [Hret _]; [reflexivity|]. rewrite Hret.
      split; [discriminate | intros [_ H]; contradiction].
    + destruct Hsome as [Hret _]; [discriminate|]. rewrite Hret.
      split; [intros _; split; [reflexivity | discriminate] | reflexivity].
Qed.

(** X3: the addresses a scan probes are an initial stretch of 1 .. 126:
    address 1 is always probed, each probed address is probed once, in
    ascending order and without gaps, and nothing outside 1 .. 126 is. *)
Theorem scan_probes_initial_stretch (bus : Bus) :
  (exists rest, scanAddresses = (probed (i2cScanOn bus) ++ rest)%list)
  /\ (exists later, probed (i2cScanOn bus) = 1 :: later)
  /\ (forall a, In a (probed (i2cScanOn bus)) -> 1 <= a <= 126).
Proof.
  assert (Hprefix : exists rest, scanAddresses = (probed (i2cScanOn bus) ++ rest)%list).
  { unfold i2cScanOn, probed.
    destruct (scanLoop bus scanAddresses 0 _) as [pr ex] eqn:Erun.
    apply scanLoop_prefix in Erun.
    destruct ex as [r|n' str']; [exact Erun|]. destruct (n' =? 0); exact Erun. }
  split; [exact Hprefix|]. split.
  - unfold i2cScanOn, probed.
    change scanAddresses with (1 :: map Z.of_nat (seq 2 125)).
    destruct (scanLoop_head bus 1 (map Z.of_nat (seq 2 125)) 0
                (strncpy "i2c device(s) found at: " 128)) as (later & ex & ->).
    destruct ex as [r|n' str']; [|destruct (n' =? 0)]; now eexists.
  - intros a Ha. destruct Hprefix as (rest & Hrest).
    apply scanAddresses_bounds. rewrite Hrest. apply in_or_app. now left.
Qed.

(** X5: on a bus where no address of 1 .. 126 acknowledges or faults, the
    scan probes all 126 addresses, logs ["No I2C devices found"] and
    returns 0. *)
Theorem scan_silent_bus (bus : Bus) :
  (forall a, 1 <= a <= 126 -> bus a <> 0 /\ bus a <> 4) ->
  i2cScanOn bus =
  mkScan (map (fun a => (a, bus a)) scanAddresses) "No I2C devices found" false.
Proof.
  intros Hsilent. unfold i2cScanOn. rewrite scanLoop_silent; [reflexivity|].
  intros a Ha. apply Hsilent. now apply scanAddresses_bounds.
Qed.

Lemma scan_silent_bus_witness :
  i2cScanOn emptyBus =
  mkScan (map (fun a => (a, emptyBus a)) scanAddresses) "No I2C devices found" false.
Proof.
  apply (scan_silent_bus emptyBus). intros a _. split; discriminate.
Defined.

(** ** More on [setup] *)

Lemma beforeInit_reads (d : list Event) :
  forallb beforeInit d = true ->
  accelSetupOk d = false /\ tofBeginOk d = false /\ framReads d = []
  /\ rtcDetections d = [] /\ filter isInitCall d = [].
Proof.
  induction d as [|e d IH]; intros Hd; [repeat split|].
  cbn in Hd. apply andb_prop in Hd as [He Hd].
  destruct (IH Hd) as (Ha & Ht & Hr & Hdet & Hcalls).
  unfold accelSetupOk, tofBeginOk, framReads, rtcDetections in *. cbn.
  rewrite Ha, Ht, Hr, Hdet, Hcalls.
  destruct e; try discriminate; repeat split.
Qed.


Section SetupMore.

Variable env : Env.

Lemma initLIS3DH_run (s : State) :
  initLIS3DH env s = Ret tt (replay s (lisStage (accel_setup env (trace s)))).
Proof.
  unfold initLIS3DH, lisStage, accel_setup_, Log_info, bind, ask. cbn.
  destruct (accel_setup env (trace s)); reflexivity.
Qed.

Lemma initTOF_run (s : State) :
  initTOF env s = Ret tt (replay s (tofStage (distanceSensor_begin env (trace s)))).
Proof.
  unfold initTOF, tofStage, distanceSensor_begin_, Log_info, bind, ask.
  cbn -[Z.eqb]. destruct (distanceSensor_begin env (trace s) =? 0); reflexivity.
Qed.

(** Lines 60-69 always run through and initialise nothing. *)
Lemma setup_start (s : State) :
  exists s1,
    Steps beforeInit s s1
    /\ setup env s
       = (initLIS3DH env;; initTOF env;; initFRAM env;; initRTC env;; setupDecision) s1.
Proof.
  unfold setup. pose proof (Steps_refl beforeInit s) as H0.
  prefix_steps.
Qed.

(** [setup] as its four initialisation stages on top of the start [d0]. *)
Lemma setup_full (s : State) :
  exists d0 ok rc stored readBack found,
    forallb beforeInit d0 = true
    /\ let sL := replay (replay s d0) (lisStage ok) in
       let sT := replay sL (tofStage rc) in
       let sF := replay sT (framStage stored readBack) in
       let sR := replay sF (rtcStage found (carrierOnline sF)) in
       setup env s = setupDecision sR.
Proof.
  destruct (setup_start s) as (s1 & (d0 & Hd0 & ->) & ->).
  unfold bind at 1. rewrite initLIS3DH_run. cbv beta iota zeta.
  unfold bind at 1. rewrite initTOF_run. cbv beta iota zeta.
  unfold bind at 1. rewrite initFRAM_run. cbv beta iota zeta.
  unfold bind at 1. rewrite initRTC_run. cbv beta iota zeta.
  eexists d0, _, _, _, _, _. split; [exact Hd0 | reflexivity].
Qed.

End SetupMore.

(** Everything [setup] adds to the trace, stage by stage, and how it ends. *)
Lemma setup_events_full (env : Env) (s : State) :
  exists d0 ok rc stored readBack found dD,
    let dL := lisStage ok in
    let dT := tofStage rc in
    let dF := framStage stored readBack in
    let sF := replay (replay (replay (replay s d0) dL) dT) dF in
    let dR := rtcStage found (carrierOnline sF) in
    let sR := replay sF dR in
    forallb beforeInit d0 = true
    /\ stateOf (setup env s) = replay sR dD
    /\ eventsSince s (stateOf (setup env s)) = (d0 ++ dL ++ dT ++ dF ++ dR ++ dD)%list
    /\ ((dD = acceptEvents /\ stopped (setup env s) = None
         /\ sensorOnlineLIS3DH sR && sensorOnlineTOF sR && carrierOnline sR = true)
        \/ (dD = [LogInfo haltLine] /\ stopped (setup env s) = Some Halted
            /\ sensorOnlineLIS3DH sR && sensorOnlineTOF sR && carrierOnline sR = false)).
Proof.
  destruct (setup_full env s) as (d0 & ok & rc & stored & readBack & found & Hd0 & Heq).
  cbv zeta in Heq. rewrite Heq, setupDecision_run.
  exists d0, ok, rc, stored, readBack, found.
  match goal with
  | |- context [if ?c then _ else _] => destruct c eqn:Hall
  end.
  - exists acceptEvents. cbv zeta. split; [exact Hd0|]. split; [reflexivity|].
    split; [|left; auto].
    cbn [stateOf]. rewrite <- !replay_app. apply eventsSince_replay.
  - exists [LogInfo haltLine]. cbv zeta. split; [exact Hd0|]. split; [reflexivity|].
    split; [|right; auto].
    cbn [stateOf]. rewrite <- !replay_app. apply eventsSince_replay.
Qed.



(** X7: whatever the devices answer and whatever state [setup] starts in,
    [setup] makes each bring-up call exactly once and in the same order:
    [accel.setup], [distanceSensor.begin], [fram.begin], [ab1805.setup],
    [ab1805.detectChip].  An earlier failure skips none of the later
    ones. *)
Theorem setup_runs_every_initialisation (env : Env) (s : State) :
  exists ok rc found,
    filter isInitCall (eventsSince s (stateOf (setup env s)))
    = [AccelSetup RATE_100_HZ ok; TofBegin rc; FramBegin; RtcSetup D8;
       RtcDetectChip found].
Proof.
  destruct (setup_events_full env s)
    as (d0 & ok & rc & stored & readBack & found & dD & Hd0 & _ & Hsince & Hend).
  cbv zeta in Hsince, Hend. rewrite Hsince. clear Hsince.
  destruct (beforeInit_reads d0 Hd0) as (_ & _ & _ & _ & Hcalls).
  exists ok, rc, found. rewrite !filter_app, Hcalls.
  assert (HdD : filter isInitCall dD = []).
  { destruct Hend as [(-> & _) | (-> & _)]; reflexivity. }
  rewrite HdD.
  generalize (carrierOnline
                (replay (replay (replay (replay s d0) (lisStage ok)) (tofStage rc))
                   (framStage stored readBack))).
  intros online. unfold lisStage, tofStage, framStage, rtcStage.
  destruct ok; destruct (rc =? 0);
    destruct (stored =? FRAMversionNumber);
    destruct (readBack =? FRAMversionNumber);
    destruct found; destruct online; reflexivity.
Qed.

(** ** More on the self-test latch *)

Section LatchMore.

Variable env : Env.

Lemma powerCycleIfArmed_latchBalance (s : State) :
  latchBalance s -> latchBalance (stateOf (powerCycleIfArmed env s)).
Proof.
  unfold latchBalance, powerCycleIfArmed, bind, get.
  destruct (powerCycleOnce s) eqn:Harmed; cbn [when]; intros Hinv.
  - destruct (powerCycleTest_latch env s) as [-> ->]. lia.
  - cbn. now rewrite Harmed.
Qed.

Lemma loop_latchBalance (s : State) :
  latchBalance s -> latchBalance (stateOf (loop env s)).
Proof.
  intros Hinv. unfold loop, bind.
  destruct (keepsLatch_flag _ _ (sampleIfDue_keepsLatch env s)) as [Hflag Hruns].
  assert (Hinv1 : latchBalance (stateOf (sampleIfDue env s))).
  { unfold latchBalance. now rewrite Hflag, Hruns. }
  destruct (sampleIfDue env s) as [[] s1|why s1]; cbn [stateOf] in *.
  - now apply powerCycleIfArmed_latchBalance.
  - exact Hinv1.
Qed.

Lemma loops_latchBalance (n : nat) :
  forall s, latchBalance s -> latchBalance (stateOf (loops env n s)).
Proof.
  induction n as [|n IH]; intros s Hinv; cbn [loops]; [exact Hinv|].
  unfold bind. pose proof (loop_latchBalance s Hinv) as Hloop.
  destruct (loop env s) as [[] s1|why s1]; cbn [stateOf] in *; auto.
Qed.

(** A pass through [loop] that returns leaves the latch released. *)
Lemma loop_returns_released (s s' : State) :
  loop env s = Ret tt s' -> powerCycleOnce s' = false.
Proof.
  unfold loop, bind.
  destruct (sampleIfDue env s) as [[] s1|why s1]; [|discriminate].
  unfold powerCycleIfArmed, bind, get.
  destruct (powerCycleOnce s1) eqn:Harmed; cbn [when]; intros Hrun.
  - destruct (powerCycleTest_latch env s1) as [Hoff _].
    rewrite Hrun in Hoff. exact Hoff.
  - unfold ret in Hrun. injection Hrun as <-. exact Harmed.
Qed.

Lemma loops_released (n : nat) :
  forall s, powerCycleOnce s = false ->
            powerCycleOnce (stateOf (loops env n s)) = false.
Proof.
  induction n as [|n IH]; intros s Hoff; cbn [loops]; [exact Hoff|].
  unfold bind. destruct (loop_released env s Hoff) as [Hoff1 _].
  destruct (loop env s) as [[] s1|why s1]; cbn [stateOf] in *; auto.
Qed.

End LatchMore.

(** X8: in a run that got through at least one pass of [loop] without
    stopping, the self-test has run exactly once and the latch is
    released. *)
Theorem selftest_exactly_once_after_first_pass (env : Env) (n : nat) :
  stopped (run env (S n)) = None ->
  selfTestRuns (trace (stateOf (run env (S n)))) = 1%nat
  /\ powerCycleOnce (stateOf (run env (S n))) = false.
Proof.
  unfold run. intros Hret.
  assert (Hbal : latchBalance (stateOf ((setup env;; loops env (S n)) bootState))).
  { unfold bind.
    destruct (keepsLatch_flag _ _ (setup_keepsLatch env bootState)) as [Hflag Hruns].
    assert (Hinv : latchBalance (stateOf (setup env bootState))).
    { unfold latchBalance. rewrite Hflag, Hruns. reflexivity. }
    destruct (setup env bootState) as [[] s1|why s1]; cbn [stateOf] in *.
    - now apply loops_latchBalance.
    - exact Hinv. }
  assert (Hoff : powerCycleOnce (stateOf ((setup env;; loops env (S n)) bootState)) = false).
  { revert Hret. unfold bind at 1 2.
    destruct (setup env bootState) as [[] s1|why s1]; [|discriminate].
    cbn [loops]. unfold bind at 1 2.
    destruct (loop env s1) as [[] s2|why s2] eqn:Hloop; [|discriminate].
    intros _. apply loops_released. now apply (loop_returns_released env s1). }
  unfold latchBalance in Hbal. rewrite Hoff in Hbal. split; [lia | exact Hoff].
Qed.

Lemma selftest_exactly_once_after_first_pass_witness :
  selfTestRuns (trace (stateOf (run healthyEnv 3))) = 1%nat
  /\ powerCycleOnce (stateOf (run healthyEnv 3)) = false.
Proof.
  apply (selftest_exactly_once_after_first_pass healthyEnv 2).
  vm_compute. reflexivity.
Defined.

(** ** What [loop] leaves alone *)

Lemma keepsCarrier_flag (s s' : State) :
  Steps keepsCarrier s s' -> carrierOnline s' = carrierOnline s.
Proof.
  intros (d & Hd & ->).
  apply (replay_keeps carrierOnline keepsCarrier); [|exact Hd].
  intros s0 [] He; try reflexivity. destruct flag; (reflexivity || discriminate).
Qed.

Lemma keepsFlags_flags (s s' : State) :
  Steps keepsFlags s s' ->
  sensorOnlineTOF s' = sensorOnlineTOF s
  /\ sensorOnlineLIS3DH s' = sensorOnlineLIS3DH s
  /\ carrierOnline s' = carrierOnline s
  /\ powerCycleOnce s' = powerCycleOnce s.
Proof.
  intros (d & Hd & ->).
  repeat split;
    (apply (replay_keeps _ keepsFlags); [|exact Hd];
     intros s0 [] He; (reflexivity || discriminate)).
Qed.

Section LoopKeeps.

Variable env : Env.

Lemma loop_keepsCarrier : steps keepsCarrier (loop env).
Proof. steps_split. Qed.

Lemma loops_keepsCarrier (n : nat) : steps keepsCarrier (loops env n).
Proof.
  induction n as [|n IH]; cbn [loops]; [apply steps_ret|].
  apply steps_bind; [apply loop_keepsCarrier | intros _; exact IH].
Qed.

Lemma sampleIfDue_keepsFlags : steps keepsFlags (sampleIfDue env).
Proof. steps_split. Qed.

End LoopKeeps.

(** X9: [carrierOnline] is settled by [setup]: after any number of passes
    through [loop], self-test and its [detectChip] call included, it has
    the value [setup] left. *)
Theorem carrierOnline_settled_by_setup (env : Env) (n : nat) :
  carrierOnline (stateOf (run env n)) = carrierOnline (stateOf (run env 0)).
Proof.
  unfold run, bind.
  destruct (setup env bootState) as [[] s1|why s1]; [|reflexivity].
  cbn [loops ret stateOf]. apply keepsCarrier_flag. apply loops_keepsCarrier.
Qed.

(** X10: the sample step of [loop] (lines 136-160) assigns none of the
    four flags, whatever the sensors answer, and it never halts: a missed
    sample changes no health state. *)
Theorem sampling_leaves_health_alone (env : Env) (s : State) :
  sensorOnlineTOF (stateOf (sampleIfDue env s)) = sensorOnlineTOF s
  /\ sensorOnlineLIS3DH (stateOf (sampleIfDue env s)) = sensorOnlineLIS3DH s
  /\ carrierOnline (stateOf (sampleIfDue env s)) = carrierOnline s
  /\ powerCycleOnce (stateOf (sampleIfDue env s)) = powerCycleOnce s
  /\ stopped (sampleIfDue env s) <> Some Halted.
Proof.
  destruct (keepsFlags_flags _ _ (sampleIfDue_keepsFlags env s)) as (H1 & H2 & H3 & H4).
  repeat (split; [assumption|]).
  intros Hhalt. now apply (sampleIfDue_spinningOnly env s) in Hhalt.
Qed.

(** A run of the dead carrier halts, and it does so in [setup]. *)
Lemma halt_only_in_setup_witness :
  stopped (run deadCarrierEnv 5) = Some Halted
  /\ stopped (run deadCarrierEnv 0) = Some Halted.
Proof.
  assert (Hhalt : stopped (run deadCarrierEnv 5) = Some Halted)
    by (vm_compute; reflexivity).
  split; [exact Hhalt | exact (halt_only_in_setup deadCarrierEnv 5 Hhalt)].
Defined.

(** ** The ranging wait *)

Lemma sampleTOF_never_ready (env : Env) (s : State) :
  (forall h, distanceSensor_readyAfter env h = None) ->
  sensorOnlineTOF s = true ->
  sampleTOF env s = Stop Spinning (replay s [TofStartRanging]).
Proof.
  intros Hnever Htof. unfold sampleTOF, bind, get. rewrite Htof. cbn [when].
  unfold waitForDataReady. cbn [emit]. rewrite Hnever. reflexivity.
Qed.

Lemma sampling_never_ready (env : Env) (s : State) :
  (forall h, distanceSensor_readyAfter env h = None) ->
  sensorOnlineTOF s = true ->
  ((sampleTOF env;; sampleLIS3DH env);; powerCycleIfArmed env) s
  = Stop Spinning (replay s [TofStartRanging]).
Proof.
  intros Hnever Htof. unfold bind at 1 2.
  now rewrite sampleTOF_never_ready.
Qed.

(** X11: when a sample is due, the distance sensor is online and it never
    reports data ready, the pass starts ranging and then stays in the wait
    of lines 141-144 for good: nothing after [startRanging] happens in that
    pass, the self-test included. *)
Theorem ranging_never_ready_hangs (env : Env) (s : State) :
  (forall h, distanceSensor_readyAfter env h = None) ->
  sensorOnlineTOF s = true ->
  sampleRateMillis s < ulong (ulong (millis env (trace s)) - lastSampleTimestamp s) ->
  stopped (loop env s) = Some Spinning
  /\ exists t,
      eventsSince s (stateOf (loop env s))
      = [Millis (ulong (millis env (trace s))); Millis t;
         SetLastSampleTimestamp t; TofStartRanging].
Proof.
  intros Hnever Htof Hdue. rewrite loop_due by (apply Z.gtb_lt; exact Hdue).
  rewrite sampling_never_ready by assumption.
  split; [reflexivity|]. cbn [stateOf]. eexists.
  rewrite <- replay_app. apply eventsSince_replay.
Qed.

Lemma ranging_never_ready_hangs_witness :
  stopped (loop deadCarrierEnv sampledAt1000) = Some Spinning
  /\ exists t,
      eventsSince sampledAt1000 (stateOf (loop deadCarrierEnv sampledAt1000))
      = [Millis (ulong (millis deadCarrierEnv (trace sampledAt1000))); Millis t;
         SetLastSampleTimestamp t; TofStartRanging].
Proof.
  apply (ranging_never_ready_hangs deadCarrierEnv sampledAt1000).
  - intros h. reflexivity.
  - reflexivity.
  - vm_compute. reflexivity.
Defined.

(** ** The sample timer *)

Section TimerMore.

Variable env : Env.

Lemma sampling_keepsTimestamp :
  steps keepsTimestamp ((sampleTOF env;; sampleLIS3DH env);; powerCycleIfArmed env).
Proof. steps_split. Qed.

(** Whether a pass samples is the outcome of the comparison at line 136. *)
Lemma loop_samples_iff_due (s : State) :
  sampleTaken (eventsSince s (stateOf (loop env s)))
  = (ulong (ulong (millis env (trace s)) - lastSampleTimestamp s) >? sampleRateMillis s).
Proof.
  destruct (ulong (ulong (millis env (trace s)) - lastSampleTimestamp s)
            >? sampleRateMillis s) eqn:Hdue.
  - rewrite loop_due by exact Hdue.
    match goal with
    | |- context [stateOf (_ ?x)] =>
        destruct (sampling_anyEvent env x) as (d & _ & Heq); rewrite Heq
    end.
    rewrite <- replay_app, eventsSince_replay. reflexivity.
  - rewrite loop_not_due by exact Hdue.
    match goal with
    | |- context [stateOf (_ ?x)] =>
        destruct (powerCycleIfArmed_notSample env x) as (d & Hd & Heq); rewrite Heq
    end.
    rewrite <- replay_app, eventsSince_replay.
    apply (notSample_trace (Millis (ulong (millis env (trace s))) :: d)). exact Hd.
Qed.

End TimerMore.

Lemma ulong_elapsed (last k : Z) :
  0 <= k < 2 ^ 32 -> ulong (ulong (last + k) - last) = k.
Proof.
  intros Hk. unfold ulong. rewrite Zminus_mod_idemp_l.
  replace (last + k - last) with k by lia. now apply Z.mod_small.
Qed.

(** X12: the interval test works on the 32-bit difference of tick counts,
    so it is indifferent to the tick counter wrapping: when the tick count
    read at line 136 is [k] ticks past [lastSampleTimestamp] modulo 2^32,
    the pass samples exactly when [k] exceeds [sampleRateMillis]. *)
Theorem sampling_survives_tick_wrap (env : Env) (s : State) (k : Z) :
  0 <= k < 2 ^ 32 ->
  ulong (millis env (trace s)) = ulong (lastSampleTimestamp s + k) ->
  (sampleTaken (eventsSince s (stateOf (loop env s))) = true <-> sampleRateMillis s < k).
Proof.
  intros Hk Hnow. rewrite loop_samples_iff_due, Hnow, ulong_elapsed by exact Hk.
  apply Z.gtb_lt.
Qed.

(** The counter has wrapped since the last sample: 2001 ticks later a
    sample is taken. *)
Lemma sampling_survives_tick_wrap_witness :
  lastSampleTimestamp sampledBeforeWrap = 4294967000
  /\ ulong (millis (clockAt 1705) (trace sampledBeforeWrap)) = 1705
  /\ sampleTaken (eventsSince sampledBeforeWrap (stateOf (loop (clockAt 1705) sampledBeforeWrap)))
     = true.
Proof.
  split; [reflexivity|]. split; [reflexivity|].
  apply (sampling_survives_tick_wrap (clockAt 1705) sampledBeforeWrap 2001).
  - lia.
  - reflexivity.
  - reflexivity.
Defined.

(** X13: a pass that samples stores in [lastSampleTimestamp] the tick
    count of the second [millis()] call (line 137), not the one compared at
    line 136, and nothing later in the pass changes it. *)
Theorem sample_timestamp_is_second_reading (env : Env) (s : State) :
  sampleRateMillis s < ulong (ulong (millis env (trace s)) - lastSampleTimestamp s) ->
  lastSampleTimestamp (stateOf (loop env s))
  = ulong (millis env (trace s ++ [Millis (ulong (millis env (trace s)))])%list).
Proof.
  intros Hdue. rewrite loop_due by (apply Z.gtb_lt; exact Hdue).
  match goal with
  | |- context [stateOf (_ ?x)] =>
      destruct (sampling_keepsTimestamp env x) as (d & Hd & Heq); rewrite Heq
  end.
  rewrite (replay_keeps lastSampleTimestamp keepsTimestamp); [reflexivity | | exact Hd].
  intros s0 [] He; try reflexivity; try discriminate. destruct flag; reflexivity.
Qed.

(** The second pass of a healthy board: the counter reads 3000 at line 136
    and 4500 at line 137. *)
Lemma sample_timestamp_is_second_reading_witness :
  sampleRateMillis (stateOf (run healthyEnv 1))
  < ulong (ulong (millis healthyEnv (trace (stateOf (run healthyEnv 1))))
           - lastSampleTimestamp (stateOf (run healthyEnv 1)))
  /\ lastSampleTimestamp (stateOf (loop healthyEnv (stateOf (run healthyEnv 1))))
     = ulong (millis healthyEnv
                (trace (stateOf (run healthyEnv 1))
                 ++ [Millis (ulong (millis healthyEnv
                                      (trace (stateOf (run healthyEnv 1)))))])%list).
Proof.
  assert (Hdue : sampleRateMillis (stateOf (run healthyEnv 1))
                 < ulong (ulong (millis healthyEnv (trace (stateOf (run healthyEnv 1))))
                          - lastSampleTimestamp (stateOf (run healthyEnv 1))))
    by (vm_compute; reflexivity).
  split; [exact Hdue|].
  exact (sample_timestamp_is_second_reading healthyEnv (stateOf (run healthyEnv 1)) Hdue).
Defined.

(** ** The power-disable line *)

Lemma sensorsPowered_app (a b : list Event) :
  forall p, sensorsPowered (a ++ b) p = sensorsPowered b (sensorsPowered a p).
Proof.
  induction a as [|e a IH]; intros p; [reflexivity|].
  destruct e; cbn [app sensorsPowered]; try apply IH.
  destruct pin; apply IH.
Qed.

Lemma sensorsPowered_quiet (d : list Event) :
  forall p, forallb noPowerWrite d = true -> sensorsPowered d p = p.
Proof.
  induction d as [|e d IH]; intros p Hd; [reflexivity|].
  cbn in Hd. apply andb_prop in Hd as [He Hd].
  destruct e; cbn [sensorsPowered]; try (now apply IH).
  destruct pin; try (now apply IH). discriminate.
Qed.

Lemma bind_emit {B} (e : Event) (k : unit -> M B) (s : State) :
  isAssignment e = false -> bind (emit e) k s = k tt (replay s [e]).
Proof. intros He. unfold bind, emit. now rewrite addEvents_replay. Qed.

Section PowerLine.

Variable env : Env.

(** Lines 174-199, with the board powered again. *)
Local Abbreviation afterPowerUp :=
  (Log_info "Devices on-line with power restored";;
   i2cScan env;;
   initLIS3DH env;;
   initTOF env;;
   powerCycleDecision).

(** Lines 169-199, from the scan of the unpowered board on. *)
Local Abbreviation whilePoweredDown :=
  (Log_info "Devices on-line without power";;
   i2cScan env;;
   found <- ab1805_detectChip_ env;;
   when found (Log_info "AB1805 detected");;
   Log_info "Bringing sensors back on-line";;
   digitalWrite disableModule false;;
   afterPowerUp).

Lemma powerCycleTest_down (s : State) :
  exists s1,
    Steps noPowerWrite s s1
    /\ powerCycleTest env s
       = (digitalWrite disableModule true;; delay 1000;; whilePoweredDown) s1.
Proof.
  unfold powerCycleTest. pose proof (Steps_refl noPowerWrite s) as H0.
  prefix_steps.
Qed.

Lemma whilePoweredDown_up (s : State) :
  exists s1,
    Steps noPowerWrite s s1
    /\ whilePoweredDown s = (digitalWrite disableModule false;; afterPowerUp) s1.
Proof.
  pose proof (Steps_refl noPowerWrite s) as H0.
  prefix_steps.
Qed.

Lemma afterPowerUp_quiet : steps noPowerWrite afterPowerUp.
Proof. steps_split. Qed.

(** The self-test writes the power-disable line twice: high, followed at
    once by the 1000 ms wait, and later low. *)
Lemma powerCycleTest_shape (s : State) :
  exists a b c,
    forallb noPowerWrite a = true
    /\ forallb noPowerWrite b = true
    /\ forallb noPowerWrite c = true
    /\ stateOf (powerCycleTest env s)
       = replay s (a ++ DigitalWrite disableModule true :: Delay 1000
                     :: b ++ DigitalWrite disableModule false :: c)%list.
Proof.
  destruct (powerCycleTest_down s) as (s1 & (a & Ha & ->) & ->).
  unfold digitalWrite at 1, delay. rewrite !bind_emit by reflexivity.
  destruct (whilePoweredDown_up (replay (replay (replay s a) [DigitalWrite disableModule true])
                                   [Delay 1000]))
    as (s2 & (b & Hb & ->) & ->).
  unfold digitalWrite at 1. rewrite bind_emit by reflexivity.
  match goal with
  | |- context [stateOf (_ ?x)] =>
      destruct (afterPowerUp_quiet x) as (c & Hc & Heq); rewrite Heq
  end.
  exists a, b, c. repeat (split; [assumption|]).
  rewrite <- !replay_app, <- ?app_assoc. reflexivity.
Qed.

Lemma sampleIfDue_noPowerWrite : steps noPowerWrite (sampleIfDue env).
Proof. steps_split. Qed.

(** [setup] drives the line low at line 63 and does not touch it again. *)
Lemma setup_power (s : State) :
  exists d,
    forallb noPowerWrite d = true
    /\ stateOf (setup env s)
       = replay s ([WireBegin; PinMode intPin INPUT; PinMode disableModule OUTPUT;
                    DigitalWrite disableModule LOW] ++ d)%list.
Proof.
  unfold setup, Wire_begin, pinMode. rewrite !bind_emit by reflexivity.
  unfold digitalWrite at 1. rewrite bind_emit by reflexivity.
  match goal with
  | |- context [stateOf (?m ?x)] =>
      assert (Hrest : steps noPowerWrite m) by steps_split;
      destruct (Hrest x) as (d & Hd & Heq); rewrite Heq
  end.
  exists d. split; [exact Hd|]. now rewrite <- !replay_app.
Qed.

Lemma poweredAtRest_quiet (s s' : State) :
  Steps noPowerWrite s s' -> poweredAtRest s -> poweredAtRest s'.
Proof.
  intros (d & Hd & ->) Hs before.
  rewrite trace_replay, sensorsPowered_app, Hs. now apply sensorsPowered_quiet.
Qed.

Lemma loop_poweredAtRest (s : State) :
  poweredAtRest s -> poweredAtRest (stateOf (loop env s)).
Proof.
  intros Hs. unfold loop, bind.
  pose proof (poweredAtRest_quiet _ _ (sampleIfDue_noPowerWrite s) Hs) as Hs1.
  destruct (sampleIfDue env s) as [[] s1|why s1]; cbn [stateOf] in *; [|exact Hs1].
  unfold powerCycleIfArmed, bind, get.
  destruct (powerCycleOnce s1); cbn [when]; [|exact Hs1].
  destruct (powerCycleTest_shape s1) as (a & b & c & _ & _ & Hc & ->).
  intros before. rewrite trace_replay, !sensorsPowered_app.
  cbn [sensorsPowered disableModule]. rewrite sensorsPowered_app.
  cbn [sensorsPowered]. now apply sensorsPowered_quiet.
Qed.

Lemma loops_poweredAtRest (n : nat) :
  forall s, poweredAtRest s -> poweredAtRest (stateOf (loops env n s)).
Proof.
  induction n as [|n IH]; intros s Hs; cbn [loops]; [exact Hs|].
  unfold bind. pose proof (loop_poweredAtRest s Hs) as Hloop.
  destruct (loop env s) as [[] s1|why s1]; cbn [stateOf] in *; auto.
Qed.

End PowerLine.

(** X14: the self-test writes the power-disable line exactly twice: it
    drives it high, waits the 1000 ms of line 168 straight away, and
    later drives it low again; it always gets as far as the second
    write. *)
Theorem selftest_power_cycle_shape (env : Env) (s : State) :
  exists a b c,
    eventsSince s (stateOf (powerCycleTest env s))
    = (a ++ DigitalWrite disableModule true :: Delay 1000
         :: b ++ DigitalWrite disableModule false :: c)%list
    /\ forallb noPowerWrite a = true
    /\ forallb noPowerWrite b = true
    /\ forallb noPowerWrite c = true.
Proof.
  destruct (powerCycleTest_shape env s) as (a & b & c & Ha & Hb & Hc & ->).
  exists a, b, c. rewrite eventsSince_replay. auto.
Qed.

(** X15: wherever a run stands after [setup] and any number of passes,
    stopped or not, the last write to the power-disable line was low: the
    process never rests, halts or hangs with the sensor board switched
    off. *)
Theorem board_powered_at_rest (env : Env) (n : nat) (before : bool) :
  sensorsPowered (trace (stateOf (run env n))) before = true.
Proof.
  revert before. change (poweredAtRest (stateOf (run env n))).
  assert (Hsetup : poweredAtRest (stateOf (setup env bootState))).
  { destruct (setup_power env bootState) as (d & Hd & ->).
    intros before. rewrite trace_replay, !sensorsPowered_app.
    cbn [sensorsPowered intPin disableModule LOW negb].
    now apply sensorsPowered_quiet. }
  unfold run, bind.
  destruct (setup env bootState) as [[] s1|why s1]; cbn [stateOf] in *.
  - now apply loops_poweredAtRest.
  - exact Hsetup.
Qed.

(** ** The fault report *)

Lemma hexDigit_inj (d1 d2 : Z) :
  0 <= d1 < 16 -> 0 <= d2 < 16 -> hexDigit d1 = hexDigit d2 -> d1 = d2.
Proof.
  intros H1 H2 Heq. apply (f_equal nat_of_ascii) in Heq. unfold hexDigit in Heq.
  destruct (Z.ltb_spec d1 10), (Z.ltb_spec d2 10);
    rewrite !nat_ascii_embedding in Heq by lia; lia.
Qed.

(** X17: the fault reports of two different byte addresses differ: the
    logged line tells which address faulted. *)
Theorem fault_report_names_address (a b : Z) :
  0 <= a < 256 -> 0 <= b < 256 -> a <> b -> faultReport a <> faultReport b.
Proof.
  intros Ha Hb Hne Heq. apply Hne.
  unfold faultReport, snprintf, fmt_02X in Heq.
  cbn -[hexDigit Z.div Z.modulo] in Heq.
  injection Heq as Hhi Hlo.
  apply hexDigit_inj in Hhi;
    [|split; [apply Z.div_pos | apply Z.div_lt_upper_bound]; lia ..].
  apply hexDigit_inj in Hlo; [|apply Z.mod_pos_bound; lia ..].
  rewrite (Z.div_mod a 16), (Z.div_mod b 16) by lia. congruence.
Qed.

Lemma fault_report_names_address_witness : faultReport 41 <> faultReport 98.
Proof. apply (fault_report_names_address 41 98); lia. Defined.

(** ** The bus-fault abort *)

Lemma i2cScanOn_prefix (bus : Bus) :
  exists rest, scanAddresses = (probed (i2cScanOn bus) ++ rest)%list.
Proof.
  unfold i2cScanOn, probed.
  destruct (scanLoop bus scanAddresses 0 (strncpy "i2c device(s) found at: " 128))
    as [pr ex] eqn:Erun.
  apply scanLoop_prefix in Erun.
  destruct ex as [r|n' str']; [exact Erun|]. destruct (n' =? 0); exact Erun.
Qed.

Lemma statuses_from_bus (bus : Bus) (pr : list (Z * Z)) :
  Forall (fun p => snd p = bus (fst p)) pr ->
  pr = map (fun x => (x, bus x)) (map fst pr).
Proof.
  induction 1 as [|[x e] pr Hx _ IH]; [reflexivity|].
  cbn in *. now rewrite <- Hx, <- IH.
Qed.

Lemma scan_eta (s : Scan) : s = mkScan (probes s) (logged s) (returned s).
Proof. destruct s; reflexivity. Qed.

Lemma firstn_exact {A} (l1 l2 : list A) :
  firstn (List.length l1) (l1 ++ l2) = l1.
Proof. induction l1 as [|x l1 IH]; cbn; [reflexivity | now rewrite IH]. Qed.

Lemma firstn_seq_min (n : nat) :
  forall start len, firstn n (seq start len) = seq start (Nat.min n len).
Proof.
  induction n as [|n IH]; intros start [|len]; cbn; try reflexivity.
  now rewrite IH.
Qed.

(** An initial stretch of 1 .. 126 that ends with [a] is 1 .. a. *)
Lemma stretch_ending_at (l : list Z) (a : Z) (rest : list Z) :
  scanAddresses = ((l ++ [a]) ++ rest)%list -> (l ++ [a])%list = upTo a.
Proof.
  intros Hsplit.
  assert (Hlen : (S (List.length l) <= 126)%nat).
  { apply (f_equal (@List.length Z)) in Hsplit.
    unfold scanAddresses in Hsplit.
    rewrite length_map, length_seq, !length_app in Hsplit. cbn in Hsplit. lia. }
  assert (Hfirst : (l ++ [a])%list = map Z.of_nat (seq 1 (S (List.length l)))).
  { rewrite <- (firstn_exact (l ++ [a]) rest), <- Hsplit.
    unfold scanAddresses. rewrite length_app. cbn [List.length].
    rewrite Nat.add_1_r, firstn_map, firstn_seq_min. do 2 f_equal. lia. }
  assert (Ha : a = Z.of_nat (S (List.length l))).
  { rewrite seq_S, map_app in Hfirst. cbn [map] in Hfirst.
    apply app_inj_tail in Hfirst as [_ Ha]. exact Ha. }
  rewrite Hfirst. unfold upTo. do 2 f_equal. lia.
Qed.

(** A probed address that returns the bus-fault code is the last
    transaction of the scan. *)
Lemma fault_probe_is_last (bus : Bus) (a : Z) :
  In a (probed (i2cScanOn bus)) ->
  bus a = 4 ->
  returned (i2cScanOn bus) = false
  /\ logged (i2cScanOn bus) = faultReport a
  /\ exists earlier, probes (i2cScanOn bus) = (earlier ++ [(a, 4)])%list.
Proof.
  intros Hprobed Hfault.
  pose proof (i2cScanOn_statuses bus) as Hstatus.
  destruct (i2cScanOn_inv bus) as (_ & _ & Hinv & _).
  revert Hprobed Hstatus Hinv. unfold probed, faulted.
  generalize (i2cScanOn bus). intros sc Hprobed Hstatus Hinv.
  apply in_map_iff in Hprobed as (p & Hp & Hin).
  assert (Hp4 : snd p = 4).
  { rewrite Forall_forall in Hstatus. rewrite (Hstatus p Hin), Hp. exact Hfault. }
  assert (Hfaulted : faultIn (probes sc) = true).
  { unfold faultIn. apply existsb_exists. exists p.
    split; [exact Hin | now rewrite Hp4]. }
  destruct (Hinv Hfaulted) as (Hret & earlier & a' & Hprobes & Hlog & Hclean).
  assert (Ha : a' = a).
  { rewrite Hprobes in Hin. apply in_app_or in Hin as [Hin|[Hin|[]]].
    - exfalso. unfold faultIn in Hclean.
      assert (Hex : existsb (fun q => snd q =? 4) earlier = true).
      { apply existsb_exists. exists p. split; [exact Hin | now rewrite Hp4]. }
      congruence.
    - subst p. exact Hp. }
  subst a'. split; [exact Hret|]. split; [exact Hlog|]. now exists earlier.
Qed.

(** C4: whatever the bus answers, if a probed address returns the
    bus-fault code 4, the scan ends with that transaction: it probed exactly
    the addresses 1 .. a, none beyond, it logs the fault report naming [a]
    and not a device list, and it returns 0. *)
Theorem scan_aborts_at_fault (bus : Bus) (a : Z) :
  In a (probed (i2cScanOn bus)) ->
  bus a = 4 ->
  i2cScanOn bus = mkScan (map (fun x => (x, bus x)) (upTo a)) (faultReport a) false.
Proof.
  intros Hprobed Hfault.
  destruct (fault_probe_is_last bus a Hprobed Hfault) as (Hret & Hlog & earlier & Hprobes).
  pose proof (statuses_from_bus bus _ (i2cScanOn_statuses bus)) as Hstatus.
  destruct (i2cScanOn_prefix bus) as (rest & Hrest).
  revert Hret Hlog Hprobes Hstatus Hrest. unfold probed.
  generalize (i2cScanOn bus). intros sc Hret Hlog Hprobes Hstatus Hrest.
  assert (Hfst : map fst (probes sc) = upTo a).
  { rewrite Hprobes, map_app in *. cbn [map fst] in *.
    now apply stretch_ending_at in Hrest. }
  rewrite Hfst in Hstatus.
  rewrite (scan_eta sc), Hstatus, Hlog, Hret. reflexivity.
Qed.

Lemma scan_aborts_at_fault_witness :
  i2cScanOn (busFaultAt 3 [1; 80])
  = mkScan (map (fun x => (x, busFaultAt 3 [1; 80] x)) (upTo 3)) (faultReport 3) false.
Proof.
  apply (scan_aborts_at_fault (busFaultAt 3 [1; 80]) 3).
  - vm_compute. tauto.
  - reflexivity.
Defined.
